(** * bimcc: BLE interactive Meshtastic chat client

    A shallow embedding of [bimcc.py]: the discovery override
    [custom_find_device], the connection override [custom_connect], the
    inbound handler [onReceive] and the session loop [main].

    The program is effectful throughout (console output, calls into the
    transport library, exceptions, [sys.exit]).  It is embedded in a small
    state-and-exception monad over a [World] that records, in order, every
    observable action the program performs.  Calls into the transport library
    are actions whose outcome is chosen by the environment. *)

From Stdlib Require Import ZArith Ascii String DecimalString.
From stdpp Require Import base strings list gmap.

Open Scope string_scope.
Open Scope list_scope.

(** ** Python runtime: exceptions, outcomes, values *)

Module Py.

(** The exception classes that occur in the program or can be delivered to
    it.  The first three derive from [BaseException] only; the others are
    subclasses of [Exception]. *)
Inductive exn : Type :=
| KeyboardInterrupt
| SystemExit (code : Z)
| CancelledError
| PyException (msg : string)
| EOFError
| KeyError (key : string)
| OtherError (cls msg : string).

(** [isinstance(e, Exception)], the test of [except Exception]. *)
Definition is_Exception (e : exn) : bool :=
  match e with
  | KeyboardInterrupt | SystemExit _ | CancelledError => false
  | PyException _ | EOFError | KeyError _ | OtherError _ _ => true
  end.

(** [isinstance(e, KeyboardInterrupt)], the test of
    [except KeyboardInterrupt]. *)
Definition is_KeyboardInterrupt (e : exn) : bool :=
  match e with KeyboardInterrupt => true | _ => false end.

(** [str(e)], as [print] renders an exception object. *)
Definition exn_str (e : exn) : string :=
  match e with
  | KeyboardInterrupt | CancelledError | EOFError => ""
  | SystemExit code => NilZero.string_of_int (Z.to_int code)
  | PyException msg | OtherError _ msg => msg
  | KeyError key => "'" +:+ key +:+ "'"
  end.

(** What running a piece of code produces: a value, a raised exception, or
    [Pending] when the code is suspended on something that never arrives
    within the observed run (an input line that was not typed, a library
    call that does not come back). *)
Inductive Outcome (A : Type) : Type :=
| Ret (a : A)
| Raise (e : exn)
| Pending.
Arguments Ret {A} a.
Arguments Raise {A} e.
Arguments Pending {A}.

(** Scalar values held in packet dictionaries. *)
Inductive pyval : Type :=
| VNone
| VInt (n : Z)
| VStr (s : string).

(** [str(v)], as an f-string renders a value. *)
Definition py_str (v : pyval) : string :=
  match v with
  | VNone => "None"
  | VInt n => NilZero.string_of_int (Z.to_int n)
  | VStr s => s
  end.

(** The line feed, ["\n"] in the source. *)
Definition newline : string := String "010" EmptyString.

(** Truthiness of an optional string ([None] and [""] are falsy). *)
Definition truthy (s : option string) : bool :=
  match s with
  | None => false
  | Some "" => false
  | Some _ => true
  end.

(** Strings hold text in UTF-8.  [str.strip()] removes the characters that
    [str.isspace] accepts: U+0009 to U+000D, U+001C to U+0020, U+0085,
    U+00A0, U+1680, U+2000 to U+200A, U+2028, U+2029, U+202F, U+205F and
    U+3000.  The three tests recognise their encodings, of one, two and
    three bytes. *)
Definition is_space1 (c : ascii) : bool :=
  let n := nat_of_ascii c in
  ((9 <=? n) && (n <=? 13) || (28 <=? n) && (n <=? 32))%nat.

Definition is_space2 (c1 c2 : ascii) : bool :=
  let n1 := nat_of_ascii c1 in
  let n2 := nat_of_ascii c2 in
  ((n1 =? 194) && ((n2 =? 133) || (n2 =? 160)))%nat.

Definition is_space3 (c1 c2 c3 : ascii) : bool :=
  let n1 := nat_of_ascii c1 in
  let n2 := nat_of_ascii c2 in
  let n3 := nat_of_ascii c3 in
  ((n1 =? 225) && (n2 =? 154) && (n3 =? 128)
   || (n1 =? 226) && (n2 =? 128)
      && ((128 <=? n3) && (n3 <=? 138) || (n3 =? 168) || (n3 =? 169) || (n3 =? 175))
   || (n1 =? 226) && (n2 =? 129) && (n3 =? 159)
   || (n1 =? 227) && (n2 =? 128) && (n3 =? 128))%nat.

(** [s.lstrip()]: leading white space is dropped, one character (of one to
    three bytes) at a time. *)
Fixpoint lstrip (s : string) : string :=
  match s with
  | String c1 s1 =>
      if is_space1 c1 then lstrip s1
      else
        match s1 with
        | String c2 s2 =>
            if is_space2 c1 c2 then lstrip s2
            else
              match s2 with
              | String c3 s3 => if is_space3 c1 c2 c3 then lstrip s3 else s
              | EmptyString => s
              end
        | EmptyString => s
        end
  | EmptyString => EmptyString
  end.

Definition reversed (s : string) : string :=
  string_of_list_ascii (rev (list_ascii_of_string s)).

(** Leading white space of a reversed string: the bytes of a character
    come last first. *)
Fixpoint lstrip_reversed (s : string) : string :=
  match s with
  | String c1 s1 =>
      if is_space1 c1 then lstrip_reversed s1
      else
        match s1 with
        | String c2 s2 =>
            if is_space2 c2 c1 then lstrip_reversed s2
            else
              match s2 with
              | String c3 s3 =>
                  if is_space3 c3 c2 c1 then lstrip_reversed s3 else s
              | EmptyString => s
              end
        | EmptyString => s
        end
  | EmptyString => EmptyString
  end.

(** [s.rstrip()] *)
Definition rstrip (s : string) : string :=
  reversed (lstrip_reversed (reversed s)).

(** [s.strip()]. *)
Definition strip (s : string) : string := rstrip (lstrip s).

(** [s.lower()] on ASCII text. *)
Definition ascii_lower_char (c : ascii) : ascii :=
  let n := nat_of_ascii c in
  if ((65 <=? n) && (n <=? 90))%nat then ascii_of_nat (n + 32) else c.

Fixpoint ascii_lower (s : string) : string :=
  match s with
  | String c s' => String (ascii_lower_char c) (ascii_lower s')
  | EmptyString => EmptyString
  end.

End Py.
Import Py.

(** ** Transport objects *)

(** A device descriptor as a scan returns it ([BLEDevice]): an address and a
    name, the latter possibly [None]. *)
Record BLEDevice : Type := {
  address : string;
  name : option string
}.

(** The owning interface object ([self] / [ble_iface]), known by identity. *)
Record BLEInterface : Type := { iface_id : nat }.

(** Objects that travel through callbacks. *)
Inductive pyobj : Type :=
| ObjNone
| ObjClient (addr : string)
| ObjBoundMethod (self : BLEInterface) (attr : string).

(** ** Observable actions *)

Inductive event : Type :=
| Print (text end_ : string)
| Scan
| NewClient (addr : string)
| ClientConnect (addr : string)
| ClientDiscover (addr : string)
| OriginalConnect (self : BLEInterface) (addr : option string)
| NewInterface (addr : string)
| TimeSleep (seconds : Z)
| Input (prompt : string)
| SendText (self : BLEInterface) (text : string) (channelIndex : Z)
| AsyncSleep
| Close (self : BLEInterface)
| SysExit (code : Z).

(** The world is the history of actions so far, oldest first. *)
Abbreviation World := (list event).

(** ** The effect monad *)

Definition M (A : Type) : Type := World -> Outcome A * World.

Definition run {A} (m : M A) (w : World) : Outcome A * World := m w.

Definition ret {A} (a : A) : M A := fun w => (Ret a, w).

Definition bind {A B} (m : M A) (k : A -> M B) : M B :=
  fun w =>
    match m w with
    | (Ret a, w') => k a w'
    | (Raise e, w') => (Raise e, w')
    | (Pending, w') => (Pending, w')
    end.

Definition raise {A} (e : exn) : M A := fun w => (Raise e, w).

(** An observable action with no result of interest. *)
Definition emit (e : event) : M unit := fun w => (Ret tt, w ++ [e]).

(** A call out of the program: the action is recorded, the environment, which
    may look at the history, decides how the call comes back. *)
Definition extern {A} (e : event) (answer : World -> Outcome A) : M A :=
  fun w => (answer w, w ++ [e]).

(** The monad is registered with stdpp's classes, which gives the notations
    [x ← m; k] and [m;; k]. *)
#[global] Instance M_ret : MRet M := @ret.
#[global] Instance M_bind : MBind M := fun A B k m => bind m k.

(** [print(text)] and [print(text, end=...)]. *)
Definition print (text : string) : M unit := emit (Print text newline).
Definition print_end (text end_ : string) : M unit := emit (Print text end_).

(** [sys.exit(code)] raises [SystemExit]. *)
Definition sys_exit {A} (code : Z) : M A :=
  emit (SysExit code);; raise (SystemExit code).

(** [try: body / except <cls> as e: handler e]. *)
Definition try_except {A} (body : M A) (catches : exn -> bool)
    (handler : exn -> M A) : M A :=
  fun w =>
    match body w with
    | (Raise e, w') => if catches e then handler e w' else (Raise e, w')
    | r => r
    end.

(** [try: body / finally: cleanup].  The clean-up runs however the body
    ends; when it ends normally the body's outcome stands, otherwise the
    clean-up's own exception replaces it.  A body that never ends never
    reaches the clean-up. *)
Definition try_finally {A} (body : M A) (cleanup : M unit) : M A :=
  fun w =>
    match body w with
    | (Pending, w') => (Pending, w')
    | (r, w') =>
        match cleanup w' with
        | (Ret _, w'') => (r, w'')
        | (Raise e, w'') => (Raise e, w'')
        | (Pending, w'') => (Pending, w'')
        end
    end.

(** [for x in xs: body x]. *)
Fixpoint for_each {A} (xs : list A) (body : A -> M unit) : M unit :=
  match xs with
  | [] => ret tt
  | x :: xs' => body x;; for_each xs' body
  end.

(** The text written to standard output by a history. *)
Fixpoint console (w : World) : string :=
  match w with
  | [] => ""
  | Print text end_ :: w' => text +:+ end_ +:+ console w'
  | _ :: w' => console w'
  end.

(** ** Discovery override *)

Section Discovery.

(** [str.lower], Python's case folding; the override only compares its
    results, so it is kept as a parameter ([ascii_lower] is the ASCII
    instance). *)
Variable lower : string -> string.

(** [BLEInterface.scan()], as the environment answers it. *)
Variable scan_answer : World -> Outcome (list BLEDevice).

Definition device_line (d : BLEDevice) : string :=
  "  Address: " +:+ address d +:+ ", Name: " +:+ default "None" (name d).

Definition address_matches (addr_lower : string) (d : BLEDevice) : bool :=
  bool_decide (lower (address d) = addr_lower).

Definition not_found_message (addr : string) : string :=
  "No BLE peripheral with address '" +:+ addr +:+ "' found. Try --ble-scan.".

(** The second loop: return the first device whose lowered address equals
    [addr_lower]; [None] when the loop runs to its end. *)
Fixpoint first_match (devices : list BLEDevice) (addr_lower : string)
    : option BLEDevice :=
  match devices with
  | [] => None
  | d :: devices' =>
      if address_matches addr_lower d then Some d
      else first_match devices' addr_lower
  end.

Definition custom_find_device (addr : string) : M BLEDevice :=
  devices ← extern Scan scan_answer;
  print "Discovered Devices:";;
  for_each devices (fun d => print (device_line d));;
  let addr_lower := lower addr in
  match first_match devices addr_lower with
  | Some d => ret d
  | None => raise (PyException (not_found_message addr))
  end.

End Discovery.

(** ** Connection override *)

(** The transport client the override builds.  Its [disconnected_callback] is
    the function object handed to the constructor; the transport calls it
    with the dropped client when the link goes down. *)
Record BLEClient : Type := {
  client_address : string;
  disconnected_callback : pyobj -> M pyobj
}.

(** How the transport library answers the calls the overrides and the
    session make.  One-shot calls have one answer; calls made once per loop
    iteration are answered from the history. *)
Record Env : Type := {
  new_client_answer : Outcome unit;          (* BLEClient(address, ...) *)
  connect_answer : Outcome unit;             (* client.connect() *)
  discover_answer : Outcome unit;            (* client.discover() *)
  original_answer : Outcome BLEClient;       (* the saved BLEInterface.connect *)
  interface_answer : string -> Outcome BLEInterface;  (* BLEInterface(address=...) *)
  stabilise_answer : Outcome unit;           (* time.sleep(2) *)
  send_answer : World -> string -> Outcome unit;      (* ble_iface.sendText(...) *)
  yield_answer : World -> Outcome unit;      (* await asyncio.sleep(0.1) *)
  close_answer : Outcome unit                (* ble_iface.close() *)
}.

Section Overrides.

Variable env : Env.

(** [BLEInterface.close], the owning interface's close routine. *)
Definition close (self : BLEInterface) : M unit :=
  extern (Close self) (fun _ => close_answer env).

(** The routine saved as [_original_connect = BLEInterface.connect] before
    the override is installed: discovery, then connect. *)
Definition _original_connect (self : BLEInterface) (addr : option string)
    : M BLEClient :=
  extern (OriginalConnect self addr) (fun _ => original_answer env).

(** [BLEClient(address, disconnected_callback=cb)] *)
Definition BLEClient_new (addr : string) (cb : pyobj -> M pyobj)
    : M BLEClient :=
  extern (NewClient addr) (fun _ => new_client_answer env);;
  ret {| client_address := addr; disconnected_callback := cb |}.

Definition BLEClient_connect (client : BLEClient) : M unit :=
  extern (ClientConnect (client_address client)) (fun _ => connect_answer env).

Definition BLEClient_discover (client : BLEClient) : M unit :=
  extern (ClientDiscover (client_address client)) (fun _ => discover_answer env).

(** [custom_connect(self, address=None)].  The test [if address:] is
    Python truthiness: [None] and the empty string both take the [else]
    branch.  The callback is [lambda _: self.close]: its body is the
    attribute access [self.close], whose value, the bound method, is what
    the callback returns. *)
Definition custom_connect (self : BLEInterface) (addr : option string)
    : M BLEClient :=
  if truthy addr then
    client ← BLEClient_new (default "" addr)
               (fun _ => ret (ObjBoundMethod self "close"));
    BLEClient_connect client;;
    BLEClient_discover client;;
    ret client
  else
    _original_connect self addr.

End Overrides.

(** ** Inbound handler *)

(** A received packet: a dictionary whose ['decoded'] entry, when present, is
    itself a dictionary, and whose other entries ([fromId], [toId], [id],
    ...) are scalars.  [fields] holds the scalar entries and never has the
    key ['decoded']. *)
Record Packet : Type := {
  fields : gmap string pyval;
  decoded_field : option (gmap string pyval)
}.

(** [len(packet)] *)
Definition packet_len (p : Packet) : nat :=
  size (fields p) + (if decoded_field p is Some _ then 1 else 0).

(** [not packet]: true of [None] and of the empty dictionary. *)
Definition packet_falsy (packet : option Packet) : bool :=
  match packet with
  | None => true
  | Some p => Nat.eqb (packet_len p) 0
  end.

(** [key in d] *)
Definition dict_contains (d : gmap string pyval) (key : string) : bool :=
  bool_decide (is_Some (d !! key)).

(** [d[key]], which raises [KeyError] on a missing key. *)
Definition dict_subscript (d : gmap string pyval) (key : string) : M pyval :=
  match d !! key with
  | Some v => ret v
  | None => raise (KeyError key)
  end.

(** [onReceive(packet=None, interface=None)] *)
Definition onReceive (packet : option Packet) (interface : option BLEInterface)
    : M unit :=
  if packet_falsy packet then ret tt
  else
    let decoded := default ∅ (packet ≫= decoded_field) in
    if dict_contains decoded "text" then
      let sender :=
        default (VStr "unknown") (packet ≫= fun p => fields p !! "fromId") in
      message ← dict_subscript decoded "text";
      print (newline +:+ py_str sender +:+ ": " +:+ py_str message);;
      print_end "Ch0> " ""
    else ret tt.

(** ** Session loop *)

Section Session.

Variable env : Env.

(** [ble_iface.sendText(msg, channelIndex=0)] *)
Definition sendText (self : BLEInterface) (text : string) (channelIndex : Z)
    : M unit :=
  extern (SendText self text channelIndex) (fun w => send_answer env w text).

(** [await asyncio.sleep(0.1)] *)
Definition async_sleep : M unit := extern AsyncSleep (yield_answer env).

(** [await loop.run_in_executor(None, input, "Ch0> ")], answered by what the
    user does next: a typed line, or an exception delivered at the wait. *)
Definition read_line (answer : Outcome string) : M string :=
  extern (Input "Ch0> ") (fun _ => answer).

(** The part of an iteration after the line has been read:
    [if msg: ble_iface.sendText(msg, channelIndex=0); await asyncio.sleep(0.1)] *)
Definition handle_line (ble_iface : BLEInterface) (msg : string) : M unit :=
  if bool_decide (msg ≠ "") then
    sendText ble_iface msg 0;;
    async_sleep
  else ret tt.

(** [while True: ...], driven by the user's actions in order.  When they
    are used up the loop is suspended in its next wait for input. *)
Fixpoint session_loop (ble_iface : BLEInterface) (typed : list (Outcome string))
    : M unit :=
  match typed with
  | [] => _ ← read_line Pending; ret tt
  | answer :: typed' =>
      msg ← read_line answer;
      handle_line ble_iface msg;;
      session_loop ble_iface typed'
  end.

(** The [try] / [except KeyboardInterrupt] / [finally] statement around
    the loop. *)
Definition session (ble_iface : BLEInterface) (typed : list (Outcome string))
    : M unit :=
  try_finally
    (try_except (session_loop ble_iface typed) is_KeyboardInterrupt
       (fun _ => print (newline +:+ "Exiting...")))
    (close env ble_iface;; sys_exit 0).

(** The first [try] statement: the constructor connects. *)
Definition connecting (addr : string) : M BLEInterface :=
  try_except
    (ble_iface ← extern (NewInterface addr) (fun _ => interface_answer env addr);
     print "Connected to BLE device!";;
     extern (TimeSleep 2) (fun _ => stabilise_answer env);;
     ret ble_iface)
    is_Exception
    (fun e =>
       print ("Error initializing BLE interface: " +:+ exn_str e);;
       sys_exit 1).

Definition banner : M unit :=
  print "BLE Interactive Meshtastic Chat Client 0.1.0";;
  print "--------------------------------------------";;
  print "Type your message and press Enter to send.";;
  print "Press Ctrl+C to exit...";;
  print "".

(** [main()], run on the command line [argv] ([sys.argv]). *)
Definition main (argv : list string) (typed : list (Outcome string)) : M unit :=
  if (length argv <? 2)%nat then
    print "Usage: python bimcc.py <BLE_DEVICE_ADDRESS>";;
    sys_exit 1
  else
    let addr := strip (default "" (argv !! 1%nat)) in
    print ("Attempting to connect to BLE device at address: " +:+ addr);;
    ble_iface ← connecting addr;
    banner;;
    session ble_iface typed.

End Session.

(** How a process ends: with an exit code, or ended by the interrupt
    signal. *)
Inductive Status : Type :=
| Exited (code : Z)
| Interrupted.

(** The status the process ends with, as the interpreter sets it:
    [sys.exit(code)] gives the low eight bits of the code, an escaping
    [KeyboardInterrupt] ends the process as the interrupt signal does
    (a shell reports 130), any other escaping exception gives 1, and a
    program that runs off its end gives 0.  A suspended program has no
    status. *)
Definition exit_status {A} (o : Outcome A) : option Status :=
  match o with
  | Ret _ => Some (Exited 0)
  | Raise (SystemExit code) => Some (Exited (code mod 256))
  | Raise KeyboardInterrupt => Some Interrupted
  | Raise _ => Some (Exited 1)
  | Pending => None
  end.

(** ** Observations and concrete inputs *)

(** The history a call of the discovery override adds, on a scan that
    returns [D]. *)
Definition scan_trace (D : list BLEDevice) : World :=
  Scan :: Print "Discovered Devices:" newline
       :: map (fun d => Print (device_line d) newline) D.

(** Descriptors used as concrete inputs. *)
Definition node_a : BLEDevice := {| address := "AA:BB:CC:DD:EE:01"; name := Some "Mesh_a" |}.
Definition node_b : BLEDevice := {| address := "AA:BB:CC:DD:EE:02"; name := None |}.
Definition node_a_again : BLEDevice := {| address := "aa:bb:cc:dd:ee:01"; name := Some "Mesh_dup" |}.

(** The calls to the saved original routine in a history. *)
Definition fallback_calls (w : World) : World :=
  List.filter (fun e => if e is OriginalConnect _ _ then true else false) w.

(** The calls to an interface's close routine in a history. *)
Definition close_calls (w : World) : World :=
  List.filter (fun e => if e is Close _ then true else false) w.

(** An environment in which every library call comes back normally. *)
Definition demo_iface : BLEInterface := {| iface_id := 0 |}.

Definition quiet_env : Env := {|
  new_client_answer := Ret tt;
  connect_answer := Ret tt;
  discover_answer := Ret tt;
  original_answer :=
    Ret {| client_address := "AA:BB:CC:DD:EE:01";
           disconnected_callback := fun _ => ret ObjNone |};
  interface_answer := fun _ => Ret demo_iface;
  stabilise_answer := Ret tt;
  send_answer := fun _ _ => Ret tt;
  yield_answer := fun _ => Ret tt;
  close_answer := Ret tt
|}.

(** The decoded text of an event, when the event is there, has a ['decoded']
    entry, and that entry has a ['text'] key. *)
Definition decoded_text (packet : option Packet) : option pyval :=
  p ← packet; d ← decoded_field p; d !! "text".

(** Two received packets. *)
Definition hi_from_node1 : Packet := {|
  fields := {[ "fromId" := VStr "node1" ]};
  decoded_field := Some {[ "text" := VStr "hi" ]}
|}.

Definition telemetry_from_node1 : Packet := {|
  fields := {[ "fromId" := VStr "node1" ]};
  decoded_field := Some {[ "portnum" := VStr "TELEMETRY_APP" ]}
|}.

(** The transport send calls in a history. *)
Definition send_calls (w : World) : World :=
  List.filter (fun e => if e is SendText _ _ _ then true else false) w.

(** What [main] does before it enters the session, when the connection is
    established. *)
Definition startup_trace (addr : string) : World :=
  [ Print ("Attempting to connect to BLE device at address: " +:+ addr) newline;
    NewInterface addr;
    Print "Connected to BLE device!" newline;
    TimeSleep 2;
    Print "BLE Interactive Meshtastic Chat Client 0.1.0" newline;
    Print "--------------------------------------------" newline;
    Print "Type your message and press Enter to send." newline;
    Print "Press Ctrl+C to exit..." newline;
    Print "" newline ].

(** A command line, with stray blanks around the address. *)
Definition demo_argv : list string := ["bimcc.py"; " AA:BB:CC:DD:EE:01 "].

(** An environment whose interface constructor fails. *)
Definition refusing_env : Env := {|
  new_client_answer := Ret tt;
  connect_answer := Ret tt;
  discover_answer := Ret tt;
  original_answer := Raise (PyException "no device");
  interface_answer := fun _ => Raise (PyException "No BLE peripheral found.");
  stabilise_answer := Ret tt;
  send_answer := fun _ _ => Ret tt;
  yield_answer := fun _ => Ret tt;
  close_answer := Ret tt
|}.

(** A string made of white space only. *)
Fixpoint all_space (s : string) : bool :=
  match s with
  | String c1 s1 =>
      if is_space1 c1 then all_space s1
      else
        match s1 with
        | String c2 s2 =>
            if is_space2 c1 c2 then all_space s2
            else
              match s2 with
              | String c3 s3 => is_space3 c1 c2 c3 && all_space s3
              | EmptyString => false
              end
        | EmptyString => false
        end
  | EmptyString => true
  end.

(** An environment given by its answers, the per-iteration ones constant. *)
Definition env_of (created connected discovered : Outcome unit)
    (original : Outcome BLEClient) (constructed : Outcome BLEInterface)
    (stabilised sent yielded closed : Outcome unit) : Env := {|
  new_client_answer := created;
  connect_answer := connected;
  discover_answer := discovered;
  original_answer := original;
  interface_answer := fun _ => constructed;
  stabilise_answer := stabilised;
  send_answer := fun _ _ => sent;
  yield_answer := fun _ => yielded;
  close_answer := closed
|}.

Definition quiet_like (connected discovered : Outcome unit)
    (constructed : Outcome BLEInterface) (stabilised sent closed : Outcome unit)
    : Env :=
  env_of (Ret tt) connected discovered (Raise (PyException "no device"))
    constructed stabilised sent (Ret tt) closed.

(** Environments in which the user interrupts the constructor, interrupts
    the stabilising sleep, and in which the close call fails. *)
Definition interrupted_connect_env : Env :=
  quiet_like (Ret tt) (Ret tt) (Raise KeyboardInterrupt) (Ret tt) (Ret tt) (Ret tt).

Definition interrupted_sleep_env : Env :=
  quiet_like (Ret tt) (Ret tt) (Ret demo_iface) (Raise KeyboardInterrupt) (Ret tt) (Ret tt).

Definition failing_close_env : Env :=
  quiet_like (Ret tt) (Ret tt) (Ret demo_iface) (Ret tt) (Ret tt)
    (Raise (OtherError "BleakError" "already gone")).

(** A command line whose address argument is white space only: a blank, a
    no-break space (U+00A0) and an ideographic space (U+3000). *)
Definition blank_address : string :=
  String " " (String "194" (String "160" (String "227" (String "128" (String "128" ""))))).

Definition blank_argv : list string := ["bimcc.py"; blank_address].

(** A text packet that names no sender. *)
Definition anonymous_hi : Packet := {|
  fields := {[ "id" := VInt 7%Z ]};
  decoded_field := Some {[ "text" := VStr "hi" ]}
|}.

(** ** Program start-up *)

(** The routines that can sit in the attributes of the [BLEInterface] class
    or on the message bus. *)
Inductive routine : Type :=
| LibraryFindDevice
| LibraryConnect
| CustomFindDevice
| CustomConnect
| OnReceive.

#[global] Instance routine_eq_dec : EqDecision routine.
Proof. solve_decision. Defined.

(** What the start-up block assigns to: the attributes of the
    [BLEInterface] class, the module global [_original_connect] ([None]
    while unbound) and the listeners of each bus topic. *)
Record Runtime : Type := {
  class_attrs : gmap string routine;
  saved_original : option routine;
  subscriptions : gmap string (list routine)
}.

(** [pub.subscribe(listener, topic)]: a listener is registered on a topic
    once. *)
Definition subscribe (listener : routine) (topic : string) (rt : Runtime)
    : Runtime :=
  let listeners := default [] (subscriptions rt !! topic) in
  if bool_decide (listener ∈ listeners) then rt
  else {| class_attrs := class_attrs rt;
          saved_original := saved_original rt;
          subscriptions := <[topic := listeners ++ [listener]]> (subscriptions rt) |}.

(** The block under [if __name__ == "__main__":], up to the call of
    [main]: three assignments and the subscription, in the order of the
    source.  Reading [BLEInterface.connect] fails when the class has no such
    attribute. *)
Definition module_main (rt : Runtime) : option Runtime :=
  let attrs1 := <["find_device" := CustomFindDevice]> (class_attrs rt) in
  original ← attrs1 !! "connect";
  let attrs2 := <["connect" := CustomConnect]> attrs1 in
  Some (subscribe OnReceive "meshtastic.receive.text"
          {| class_attrs := attrs2;
             saved_original := Some original;
             subscriptions := subscriptions rt |}).

(** The library as imported, before the block runs. *)
Definition pristine : Runtime := {|
  class_attrs := {[ "find_device" := LibraryFindDevice; "connect" := LibraryConnect ]};
  saved_original := None;
  subscriptions := ∅
|}.

(** * Properties *)

(** ** Running the monad *)

Lemma run_bind {A B} (m : M A) (k : A -> M B) w :
  run (m ≫= k) w =
  match run m w with
  | (Ret a, w') => run (k a) w'
  | (Raise e, w') => (Raise e, w')
  | (Pending, w') => (Pending, w')
  end.
Proof. reflexivity. Qed.

Lemma run_ret {A} (a : A) w : run (ret a) w = (Ret a, w).
Proof. reflexivity. Qed.

Lemma run_raise {A} e w : run (@raise A e) w = (Raise e, w).
Proof. reflexivity. Qed.

Lemma run_emit e w : run (emit e) w = (Ret tt, w ++ [e]).
Proof. reflexivity. Qed.

Lemma run_print text w : run (print text) w = (Ret tt, w ++ [Print text newline]).
Proof. reflexivity. Qed.

Lemma run_extern {A} e (answer : World -> Outcome A) w :
  run (extern e answer) w = (answer w, w ++ [e]).
Proof. reflexivity. Qed.

Lemma run_sys_exit {A} code w :
  run (@sys_exit A code) w = (Raise (SystemExit code), w ++ [SysExit code]).
Proof. reflexivity. Qed.

Ltac step :=
  repeat first
    [ rewrite run_bind | rewrite run_ret | rewrite run_raise | rewrite run_print
    | rewrite run_emit | rewrite run_extern | rewrite run_sys_exit ];
  cbn beta iota.

(** A loop of prints writes one line per element, in order. *)
Lemma run_for_each_print {A} (line : A -> string) (xs : list A) w :
  run (for_each xs (fun x => print (line x))) w =
  (Ret tt, w ++ map (fun x => Print (line x) newline) xs).
Proof.
  revert w. induction xs as [|x xs IH]; intros w; simpl.
  - by rewrite app_nil_r.
  - step. rewrite IH. by rewrite <- app_assoc.
Qed.

(** ** Discovery override *)

Section DiscoveryFacts.

Variable lower : string -> string.

(** The whole behaviour of the override on a scan that returns [D]. *)
Lemma run_custom_find_device D a w :
  run (custom_find_device lower (fun _ => Ret D) a) w =
  (match first_match lower D (lower a) with
   | Some d => Ret d
   | None => Raise (PyException (not_found_message a))
   end, w ++ scan_trace D).
Proof.
  unfold custom_find_device, scan_trace. step.
  rewrite run_for_each_print.
  rewrite <- !app_assoc. simpl.
  by destruct (first_match lower D (lower a)).
Qed.

Lemma first_match_head D al :
  first_match lower D al = head (filter (fun d => lower (address d) = al) D).
Proof.
  induction D as [|d D IH]; [done|]. simpl.
  unfold address_matches. rewrite filter_cons.
  case_bool_decide; case_decide; try done.
Qed.

Lemma first_match_app_skip pre d post al :
  (forall x, x ∈ pre -> lower (address x) ≠ al) ->
  lower (address d) = al ->
  first_match lower (pre ++ d :: post) al = Some d.
Proof.
  intros Hpre Hd. induction pre as [|x pre IH]; simpl.
  - unfold address_matches. by rewrite bool_decide_eq_true_2.
  - unfold address_matches at 1. rewrite bool_decide_eq_false_2.
    + apply IH. intros y Hy. apply Hpre. by right.
    + apply Hpre. by left.
Qed.

Lemma first_match_none D al :
  (forall d, d ∈ D -> lower (address d) ≠ al) -> first_match lower D al = None.
Proof.
  intros H. induction D as [|d D IH]; [done|]. simpl.
  unfold address_matches. rewrite bool_decide_eq_false_2.
  - apply IH. intros x Hx. apply H. by right.
  - apply H. by left.
Qed.

(** With at most one matching position the first match is the same in
    every ordering of the scan. *)
Lemma first_match_perm (D D' : list BLEDevice) al :
  (length (filter (fun d => lower (address d) = al) D) ≤ 1)%nat ->
  D' ≡ₚ D ->
  first_match lower D' al = first_match lower D al.
Proof.
  intros Hlen Hperm. rewrite !first_match_head.
  assert (Hf : filter (fun d => lower (address d) = al) D'
               ≡ₚ filter (fun d => lower (address d) = al) D)
    by (by apply filter_Permutation).
  destruct (filter _ D) as [|x [|y l]] eqn:E.
  - apply Permutation_nil_r in Hf. by rewrite Hf.
  - apply Permutation_singleton_r in Hf. by rewrite Hf.
  - simpl in Hlen. lia.
Qed.

Lemma first_match_unique (D : list BLEDevice) d al :
  (length (filter (fun d => lower (address d) = al) D) ≤ 1)%nat ->
  d ∈ D -> lower (address d) = al ->
  first_match lower D al = Some d.
Proof.
  intros Hlen Hin Hd. rewrite first_match_head.
  assert (Hf : d ∈ filter (fun d => lower (address d) = al) D)
    by (by apply list_elem_of_filter).
  destruct (filter _ D) as [|x [|y l]] eqn:E.
  - by apply elem_of_nil in Hf.
  - apply list_elem_of_singleton in Hf. by subst.
  - simpl in Hlen. lia.
Qed.

End DiscoveryFacts.

Example find_device_demo :
  run (custom_find_device ascii_lower (fun _ => Ret [node_b; node_a]) "aa:bb:cc:dd:ee:01") [] =
  (Ret node_a,
   [Scan; Print "Discovered Devices:" newline;
    Print "  Address: AA:BB:CC:DD:EE:02, Name: None" newline;
    Print "  Address: AA:BB:CC:DD:EE:01, Name: Mesh_a" newline]).
Proof. reflexivity. Qed.

(** C4.  For every scan result [D] and target [a] with at most one
    descriptor of [D] matching [a] case-insensitively, [custom_find_device]
    returns the matching descriptor when there is one, raises the exception
    whose message advises [--ble-scan] when there is none, and its outcome
    is the same for every reordering of [D]. *)
Theorem C4_find_device_unique_match
    (lower : string -> string) (D : list BLEDevice) (a : string) (w : World) :
  (length (filter (fun d => lower (address d) = lower a) D) ≤ 1)%nat ->
  (forall d, d ∈ D -> lower (address d) = lower a ->
     (run (custom_find_device lower (fun _ => Ret D) a) w).1 = Ret d)
  ∧ ((forall d, d ∈ D -> lower (address d) ≠ lower a) ->
     (run (custom_find_device lower (fun _ => Ret D) a) w).1 =
     Raise (PyException
              ("No BLE peripheral with address '" +:+ a +:+ "' found. Try --ble-scan.")))
  ∧ (forall D' w', D' ≡ₚ D ->
     (run (custom_find_device lower (fun _ => Ret D') a) w').1 =
     (run (custom_find_device lower (fun _ => Ret D) a) w).1).
Proof.
  intros Hone. repeat split.
  - intros d Hin Hd. rewrite run_custom_find_device. simpl.
    by rewrite (first_match_unique lower D d).
  - intros Hnone. rewrite run_custom_find_device. simpl.
    by rewrite first_match_none.
  - intros D' w' Hperm. rewrite !run_custom_find_device. simpl.
    by rewrite (first_match_perm lower D D').
Qed.

Lemma C4_find_device_unique_match_witness :
  (forall d, d ∈ [node_b; node_a] ->
     ascii_lower (address d) = ascii_lower "aa:bb:cc:dd:ee:01" ->
     (run (custom_find_device ascii_lower (fun _ => Ret [node_b; node_a])
             "aa:bb:cc:dd:ee:01") []).1 = Ret d)
  ∧ ((forall d, d ∈ [node_b; node_a] ->
        ascii_lower (address d) ≠ ascii_lower "aa:bb:cc:dd:ee:01") ->
     (run (custom_find_device ascii_lower (fun _ => Ret [node_b; node_a])
             "aa:bb:cc:dd:ee:01") []).1 =
     Raise (PyException
              ("No BLE peripheral with address '" +:+ "aa:bb:cc:dd:ee:01"
               +:+ "' found. Try --ble-scan.")))
  ∧ (forall D' w', D' ≡ₚ [node_b; node_a] ->
     (run (custom_find_device ascii_lower (fun _ => Ret D') "aa:bb:cc:dd:ee:01") w').1 =
     (run (custom_find_device ascii_lower (fun _ => Ret [node_b; node_a])
             "aa:bb:cc:dd:ee:01") []).1).
Proof.
  apply (C4_find_device_unique_match ascii_lower [node_b; node_a] "aa:bb:cc:dd:ee:01" []).
  vm_compute. lia.
Defined.

(** C9.  For every scan result and every target address the override
    prints, after the heading, one line per discovered descriptor (address
    and name), in scan order and nothing else, whether it then returns a
    match or raises. *)
Theorem C9_find_device_prints_every_descriptor_once
    (lower : string -> string) (D : list BLEDevice) (a : string) (w : World) :
  (run (custom_find_device lower (fun _ => Ret D) a) w).2 =
    w ++ Scan :: Print "Discovered Devices:" newline
      :: map (fun d => Print ("  Address: " +:+ address d +:+ ", Name: "
                              +:+ default "None" (name d)) newline) D
  ∧ ((exists d, (run (custom_find_device lower (fun _ => Ret D) a) w).1 = Ret d)
     ∨ (run (custom_find_device lower (fun _ => Ret D) a) w).1 =
       Raise (PyException (not_found_message a))).
Proof.
  rewrite run_custom_find_device. simpl. split; [done|].
  destruct (first_match lower D (lower a)) as [d|]; [left; by exists d | by right].
Qed.

(** C10.  When several descriptors match the target case-insensitively the
    override returns the earliest one in scan order: the descriptor that no
    matching descriptor precedes.  Its outcome is a function of the scan
    result and the target alone, whatever happened before the call. *)
Theorem C10_find_device_first_match
    (lower : string -> string) (pre post : list BLEDevice) (d : BLEDevice)
    (a : string) (w : World) :
  (forall x, x ∈ pre -> lower (address x) ≠ lower a) ->
  lower (address d) = lower a ->
  (run (custom_find_device lower (fun _ => Ret (pre ++ d :: post)) a) w).1 = Ret d
  ∧ forall w',
      (run (custom_find_device lower (fun _ => Ret (pre ++ d :: post)) a) w').1 =
      (run (custom_find_device lower (fun _ => Ret (pre ++ d :: post)) a) w).1.
Proof.
  intros Hpre Hd. split.
  - rewrite run_custom_find_device. simpl. by rewrite first_match_app_skip.
  - intros w'. by rewrite !run_custom_find_device.
Qed.

Lemma C10_find_device_first_match_witness :
  (run (custom_find_device ascii_lower
          (fun _ => Ret ([node_b] ++ node_a :: [node_a_again]))
          "AA:bb:CC:dd:EE:01") []).1 = Ret node_a
  ∧ forall w',
      (run (custom_find_device ascii_lower
              (fun _ => Ret ([node_b] ++ node_a :: [node_a_again]))
              "AA:bb:CC:dd:EE:01") w').1 =
      (run (custom_find_device ascii_lower
              (fun _ => Ret ([node_b] ++ node_a :: [node_a_again]))
              "AA:bb:CC:dd:EE:01") []).1.
Proof.
  apply (C10_find_device_first_match ascii_lower [node_b] [node_a_again] node_a
           "AA:bb:CC:dd:EE:01" []).
  - intros x Hx. apply list_elem_of_singleton in Hx. subst x. vm_compute. discriminate.
  - vm_compute. reflexivity.
Defined.

(** ** Connection override *)

Section ConnectionFacts.

Variable env : Env.

(** A falsy address goes to the saved routine and does nothing else. *)
Lemma run_custom_connect_falsy self addr w :
  truthy addr = false ->
  run (custom_connect env self addr) w =
  (original_answer env, w ++ [OriginalConnect self addr]).
Proof. intros H. unfold custom_connect. rewrite H. reflexivity. Qed.

(** A truthy address builds the client, connects it and discovers its
    services, stopping at the first of the three calls that does not
    return. *)
Lemma run_custom_connect_truthy self a w :
  a ≠ "" ->
  let client := {| client_address := a;
                   disconnected_callback :=
                     fun _ => ret (ObjBoundMethod self "close") |} in
  run (custom_connect env self (Some a)) w =
  match new_client_answer env with
  | Ret _ =>
      match connect_answer env with
      | Ret _ =>
          match discover_answer env with
          | Ret _ => (Ret client, w ++ [NewClient a; ClientConnect a; ClientDiscover a])
          | Raise e => (Raise e, w ++ [NewClient a; ClientConnect a; ClientDiscover a])
          | Pending => (Pending, w ++ [NewClient a; ClientConnect a; ClientDiscover a])
          end
      | Raise e => (Raise e, w ++ [NewClient a; ClientConnect a])
      | Pending => (Pending, w ++ [NewClient a; ClientConnect a])
      end
  | Raise e => (Raise e, w ++ [NewClient a])
  | Pending => (Pending, w ++ [NewClient a])
  end.
Proof.
  intros Ha client. unfold custom_connect.
  assert (Ht : truthy (Some a) = true) by (by destruct a).
  rewrite Ht. simpl default.
  unfold BLEClient_new, BLEClient_connect, BLEClient_discover. step.
  destruct (new_client_answer env) as [[]| |]; [|done|done].
  step. simpl client_address.
  destruct (connect_answer env) as [[]| |];
    [|by rewrite <- app_assoc|by rewrite <- app_assoc].
  step.
  destruct (discover_answer env) as [[]| |]; step; by rewrite <- !app_assoc.
Qed.

(** A truthy address never reaches the saved routine. *)
Lemma custom_connect_truthy_no_fallback self a w :
  a ≠ "" ->
  exists t, (run (custom_connect env self (Some a)) w).2 = w ++ t
            ∧ fallback_calls t = [].
Proof.
  intros Ha. rewrite run_custom_connect_truthy by done.
  destruct (new_client_answer env) as [[]| |];
    [destruct (connect_answer env) as [[]| |];
      [destruct (discover_answer env) as [[]| |]|..]|..];
    simpl; eexists; (split; [reflexivity|reflexivity]).
Qed.

End ConnectionFacts.

(** C1 (what the code does).  The callback that [custom_connect] hands to
    the client is [lambda _: self.close]: when the transport invokes it, it
    evaluates the attribute [self.close] and returns that bound method.  The
    close routine itself is not called, so the history is unchanged. *)
Theorem C1_disconnect_callback_returns_close_uncalled
    (env : Env) (self : BLEInterface) (a : string) (w w' : World)
    (client : BLEClient) :
  a ≠ "" ->
  run (custom_connect env self (Some a)) w = (Ret client, w') ->
  forall (dropped : pyobj) (w2 : World),
    run (disconnected_callback client dropped) w2 =
      (Ret (ObjBoundMethod self "close"), w2)
    ∧ close_calls (run (disconnected_callback client dropped) w2).2 = close_calls w2
    ∧ run (close env self) w2 = (close_answer env, w2 ++ [Close self]).
Proof.
  intros Ha Hrun dropped w2.
  rewrite run_custom_connect_truthy in Hrun by done.
  destruct (new_client_answer env) as [[]| |]; try discriminate.
  destruct (connect_answer env) as [[]| |]; try discriminate.
  destruct (discover_answer env) as [[]| |]; try discriminate.
  injection Hrun as <- <-. simpl. done.
Qed.

Lemma C1_disconnect_callback_returns_close_uncalled_witness :
  run (disconnected_callback
         {| client_address := "AA:BB:CC:DD:EE:01";
            disconnected_callback :=
              fun _ => ret (ObjBoundMethod demo_iface "close") |}
         (ObjClient "AA:BB:CC:DD:EE:01")) (startup_trace "AA:BB:CC:DD:EE:01") =
    (Ret (ObjBoundMethod demo_iface "close"), startup_trace "AA:BB:CC:DD:EE:01")
  ∧ close_calls
      (run (disconnected_callback
              {| client_address := "AA:BB:CC:DD:EE:01";
                 disconnected_callback :=
                   fun _ => ret (ObjBoundMethod demo_iface "close") |}
              (ObjClient "AA:BB:CC:DD:EE:01")) (startup_trace "AA:BB:CC:DD:EE:01")).2
    = close_calls (startup_trace "AA:BB:CC:DD:EE:01")
  ∧ run (close quiet_env demo_iface) (startup_trace "AA:BB:CC:DD:EE:01") =
      (close_answer quiet_env, startup_trace "AA:BB:CC:DD:EE:01" ++ [Close demo_iface]).
Proof.
  apply (C1_disconnect_callback_returns_close_uncalled quiet_env demo_iface
           "AA:BB:CC:DD:EE:01" []
           [NewClient "AA:BB:CC:DD:EE:01"; ClientConnect "AA:BB:CC:DD:EE:01";
            ClientDiscover "AA:BB:CC:DD:EE:01"]
           _ ltac:(discriminate) ltac:(vm_compute; reflexivity)
           (ObjClient "AA:BB:CC:DD:EE:01") (startup_trace "AA:BB:CC:DD:EE:01")).
Defined.

(** The link drops after a direct connect: no close call is made. *)
Example C1_link_drop_leaves_interface_open :
  exists client w',
    run (custom_connect quiet_env demo_iface (Some "AA:BB:CC:DD:EE:01")) [] = (Ret client, w')
    ∧ run (disconnected_callback client (ObjClient "AA:BB:CC:DD:EE:01")) w' =
      (Ret (ObjBoundMethod demo_iface "close"),
       [NewClient "AA:BB:CC:DD:EE:01"; ClientConnect "AA:BB:CC:DD:EE:01";
        ClientDiscover "AA:BB:CC:DD:EE:01"]).
Proof. eexists _, _. split; reflexivity. Qed.

(** C2 as stated fails: the empty string is a non-null address string, and
    with it [custom_connect] calls the saved original routine. *)
Lemma C2_counterexample_empty_address :
  ~ (forall a : string,
       fallback_calls (run (custom_connect quiet_env demo_iface (Some a)) []).2 = []).
Proof. intros H. specialize (H ""). vm_compute in H. discriminate. Qed.

(** C2 (amended).  For every non-empty address string [custom_connect]
    makes no call to the saved original routine; for the address [None],
    and for the empty string, its only action is that call, whose answer it
    returns. *)
Theorem C2_connect_fallback_iff_falsy
    (env : Env) (self : BLEInterface) (w : World) :
  (forall a : string, a ≠ "" ->
     exists t, (run (custom_connect env self (Some a)) w).2 = w ++ t
               ∧ fallback_calls t = [])
  ∧ run (custom_connect env self None) w =
      (original_answer env, w ++ [OriginalConnect self None])
  ∧ run (custom_connect env self (Some "")) w =
      (original_answer env, w ++ [OriginalConnect self (Some "")]).
Proof.
  split; [|split].
  - intros a Ha. by apply custom_connect_truthy_no_fallback.
  - by apply run_custom_connect_falsy.
  - by apply run_custom_connect_falsy.
Qed.

Lemma C2_connect_fallback_iff_falsy_witness :
  exists t, (run (custom_connect quiet_env demo_iface (Some "AA:BB:CC:DD:EE:01")) []).2 = [] ++ t
            ∧ fallback_calls t = [].
Proof.
  apply (proj1 (C2_connect_fallback_iff_falsy quiet_env demo_iface []) "AA:BB:CC:DD:EE:01").
  discriminate.
Defined.

(** ** Inbound handler *)

Lemma packet_with_decoded_truthy p d :
  decoded_field p = Some d -> packet_falsy (Some p) = false.
Proof.
  intros H. unfold packet_falsy, packet_len. rewrite H.
  apply Nat.eqb_neq. lia.
Qed.

Lemma dict_contains_true d key v : d !! key = Some v -> dict_contains d key = true.
Proof. intros H. unfold dict_contains. apply bool_decide_eq_true_2. by exists v. Qed.

Lemma dict_contains_false d key : d !! key = None -> dict_contains d key = false.
Proof.
  intros H. unfold dict_contains. apply bool_decide_eq_false_2.
  rewrite H. by intros [? ?].
Qed.

(** A text event is rendered as the sender line and the prompt. *)
Lemma run_onReceive_text p d message interface w :
  decoded_field p = Some d ->
  d !! "text" = Some message ->
  run (onReceive (Some p) interface) w =
  (Ret tt,
   w ++ [Print (newline +:+ py_str (default (VStr "unknown") (fields p !! "fromId"))
                +:+ ": " +:+ py_str message) newline;
         Print "Ch0> " ""]).
Proof.
  intros Hd Ht. unfold onReceive.
  rewrite (packet_with_decoded_truthy p d Hd). simpl. rewrite Hd. simpl.
  rewrite (dict_contains_true d "text" message Ht).
  unfold dict_subscript. rewrite Ht. step.
  unfold print_end. step. by rewrite <- app_assoc.
Qed.

(** C5.  For an event whose sender field is "node1" and whose decoded text
    is "hi", the handler prints the line "\nnode1: hi" and then the prompt
    "Ch0> " (the latter without a line end), and nothing else. *)
Theorem C5_inbound_text_rendering
    (p : Packet) (d : gmap string pyval) (interface : option BLEInterface)
    (w : World) :
  fields p !! "fromId" = Some (VStr "node1") ->
  decoded_field p = Some d ->
  d !! "text" = Some (VStr "hi") ->
  run (onReceive (Some p) interface) w =
    (Ret tt, w ++ [Print (newline +:+ "node1: hi") newline; Print "Ch0> " ""])
  ∧ console [Print (newline +:+ "node1: hi") newline; Print "Ch0> " ""] =
      newline +:+ "node1: hi" +:+ newline +:+ "Ch0> ".
Proof.
  intros Hs Hd Ht. split; [|reflexivity].
  rewrite (run_onReceive_text p d (VStr "hi")) by done.
  by rewrite Hs.
Qed.

Lemma C5_inbound_text_rendering_witness :
  run (onReceive (Some hi_from_node1) (Some demo_iface)) [] =
    (Ret tt, [] ++ [Print (newline +:+ "node1: hi") newline; Print "Ch0> " ""])
  ∧ console [Print (newline +:+ "node1: hi") newline; Print "Ch0> " ""] =
      newline +:+ "node1: hi" +:+ newline +:+ "Ch0> ".
Proof.
  apply (C5_inbound_text_rendering hi_from_node1 {[ "text" := VStr "hi" ]}
           (Some demo_iface) []).
  - vm_compute. reflexivity.
  - reflexivity.
  - vm_compute. reflexivity.
Defined.

(** C7.  For an event that is absent, or that has no decoded text (no
    ['decoded'] entry, or one without a ['text'] key), the handler returns
    normally and leaves the history, hence the console, as it was. *)
Theorem C7_inbound_without_text_is_ignored
    (packet : option Packet) (interface : option BLEInterface) (w : World) :
  decoded_text packet = None ->
  run (onReceive packet interface) w = (Ret tt, w).
Proof.
  intros H. unfold onReceive.
  destruct (packet_falsy packet); [done|].
  destruct packet as [p|]; simpl in *.
  - destruct (decoded_field p) as [d|]; simpl in *.
    + by rewrite (dict_contains_false d "text" H).
    + by rewrite dict_contains_false.
  - by rewrite dict_contains_false.
Qed.

Lemma C7_inbound_without_text_is_ignored_witness :
  run (onReceive (Some telemetry_from_node1) (Some demo_iface)) [] = (Ret tt, []).
Proof.
  apply (C7_inbound_without_text_is_ignored (Some telemetry_from_node1)
           (Some demo_iface) []).
  vm_compute. reflexivity.
Defined.

Example onReceive_absent : run (onReceive None None) [] = (Ret tt, []).
Proof. reflexivity. Qed.

Example onReceive_unknown_sender :
  run (onReceive (Some {| fields := ∅; decoded_field := Some {[ "text" := VStr "hi" ]} |})
         None) [] =
  (Ret tt, [Print (newline +:+ "unknown: hi") newline; Print "Ch0> " ""]).
Proof. vm_compute. reflexivity. Qed.

(** ** Session loop *)

Lemma close_calls_app w1 w2 : close_calls (w1 ++ w2) = close_calls w1 ++ close_calls w2.
Proof. apply List.filter_app. Qed.

Lemma send_calls_app w1 w2 : send_calls (w1 ++ w2) = send_calls w1 ++ send_calls w2.
Proof. apply List.filter_app. Qed.

Section SessionFacts.

Variable env : Env.
Variable ble_iface : BLEInterface.

Lemma run_handle_line_empty w :
  run (handle_line env ble_iface "") w = (Ret tt, w).
Proof. reflexivity. Qed.

Lemma run_handle_line_text msg w :
  msg ≠ "" ->
  run (handle_line env ble_iface msg) w =
  match send_answer env w msg with
  | Ret _ => (yield_answer env (w ++ [SendText ble_iface msg 0]),
              w ++ [SendText ble_iface msg 0; AsyncSleep])
  | Raise e => (Raise e, w ++ [SendText ble_iface msg 0])
  | Pending => (Pending, w ++ [SendText ble_iface msg 0])
  end.
Proof.
  intros Hmsg. unfold handle_line. rewrite bool_decide_eq_true_2 by done.
  unfold sendText, async_sleep. step.
  destruct (send_answer env w msg) as [[]| |]; [|done|done].
  step. by rewrite <- app_assoc.
Qed.

Lemma run_session_loop_cons answer typed w :
  run (session_loop env ble_iface (answer :: typed)) w =
  match answer with
  | Ret msg =>
      match run (handle_line env ble_iface msg) (w ++ [Input "Ch0> "]) with
      | (Ret _, w') => run (session_loop env ble_iface typed) w'
      | (Raise e, w') => (Raise e, w')
      | (Pending, w') => (Pending, w')
      end
  | Raise e => (Raise e, w ++ [Input "Ch0> "])
  | Pending => (Pending, w ++ [Input "Ch0> "])
  end.
Proof.
  simpl session_loop. unfold read_line. step.
  destruct answer as [msg| |]; [|done|done].
  step. by destruct (run (handle_line env ble_iface msg) (w ++ [Input "Ch0> "])) as [[[]| |] ?].
Qed.

(** What one line adds to the history holds no close call. *)
Lemma handle_line_trace msg w :
  exists t, (run (handle_line env ble_iface msg) w).2 = w ++ t
            ∧ close_calls t = [].
Proof.
  destruct (decide (msg = "")) as [->|Hmsg].
  - exists []. by rewrite app_nil_r.
  - rewrite run_handle_line_text by done.
    destruct (send_answer env w msg) as [[]| |]; eexists; (split; [reflexivity|reflexivity]).
Qed.

(** The loop itself never closes the connection and never returns: it
    ends by an exception or stays suspended. *)
Lemma session_loop_trace typed w :
  exists t, (run (session_loop env ble_iface typed) w).2 = w ++ t
            ∧ close_calls t = []
            ∧ forall u, (run (session_loop env ble_iface typed) w).1 ≠ Ret u.
Proof.
  revert w. induction typed as [|answer typed IH]; intros w.
  - exists [Input "Ch0> "]. by repeat split.
  - rewrite run_session_loop_cons.
    destruct answer as [msg| |];
      [|exists [Input "Ch0> "]; by repeat split..].
    destruct (handle_line_trace msg (w ++ [Input "Ch0> "])) as (t & Ht & Hc).
    destruct (run (handle_line env ble_iface msg) (w ++ [Input "Ch0> "]))
      as [[[]| |] w1]; simpl in Ht; subst w1.
    + destruct (IH ((w ++ [Input "Ch0> "]) ++ t)) as (t' & Ht' & Hc' & Hr).
      exists ([Input "Ch0> "] ++ t ++ t'). split; [|split; [|done]].
      * rewrite Ht'. by rewrite <- !app_assoc.
      * by rewrite !close_calls_app, Hc, Hc'.
    + exists ([Input "Ch0> "] ++ t). rewrite close_calls_app, Hc.
      by rewrite <- app_assoc.
    + exists ([Input "Ch0> "] ++ t). rewrite close_calls_app, Hc.
      by rewrite <- app_assoc.
Qed.

(** When no library call hangs, a script whose first non-line action is
    an exception delivered at the wait makes the loop end. *)
Lemma session_loop_ends lines e rest w :
  (forall w s, send_answer env w s ≠ Pending) ->
  (forall w, yield_answer env w ≠ Pending) ->
  exists e', (run (session_loop env ble_iface (map Ret lines ++ Raise e :: rest)) w).1
             = Raise e'.
Proof.
  intros Hsend Hyield. revert w.
  induction lines as [|msg lines IH]; intros w; simpl map; simpl app;
    rewrite run_session_loop_cons; [by exists e|].
  destruct (decide (msg = "")) as [->|Hmsg].
  - rewrite run_handle_line_empty. apply IH.
  - rewrite run_handle_line_text by done.
    destruct (send_answer env (w ++ [Input "Ch0> "]) msg) as [[]| |] eqn:Es.
    + destruct (yield_answer env ((w ++ [Input "Ch0> "]) ++ [SendText ble_iface msg 0]))
        as [[]| |] eqn:Ey.
      * apply IH.
      * by eexists.
      * by apply Hyield in Ey.
    + by eexists.
    + by apply Hsend in Es.
Qed.

(** The [try] statement around the loop: whenever it ends, the close call
    has been made, once, after everything the loop did, and the only thing
    that can follow it is [sys.exit(0)]. *)
Lemma session_closes typed w o w' :
  run (session env ble_iface typed) w = (o, w') ->
  o ≠ Pending ->
  exists pre,
    close_calls pre = []
    ∧ ((close_answer env = Ret tt ∧ o = Raise (SystemExit 0)
        ∧ w' = w ++ pre ++ [Close ble_iface; SysExit 0])
       ∨ (exists e, close_answer env = Raise e ∧ o = Raise e
                    ∧ w' = w ++ pre ++ [Close ble_iface])).
Proof.
  intros Hrun Ho.
  destruct (session_loop_trace typed w) as (t & Ht & Hc & Hret).
  unfold session, try_finally, try_except, run in *.
  destruct (session_loop env ble_iface typed w) as [[u|e|] w1];
    simpl in Ht; subst w1.
  - by destruct (Hret u).
  - set (w1 := if is_KeyboardInterrupt e
               then t ++ [Print (newline +:+ "Exiting...") newline] else t).
    assert (Hc1 : close_calls w1 = []).
    { unfold w1. destruct (is_KeyboardInterrupt e); [|done].
      by rewrite close_calls_app, Hc. }
    exists w1. split; [done|].
    unfold w1 in *. clear w1.
    destruct (is_KeyboardInterrupt e); simpl in Hrun;
      unfold close, mbind, M_bind, bind, extern, sys_exit, mbind, M_bind, bind,
             emit, raise, print, emit in Hrun; simpl in Hrun;
      destruct (close_answer env) as [[]| |]; simpl in Hrun;
      injection Hrun as <- <-; try done;
      first [ left; repeat split; by rewrite <- ?app_assoc
            | right; eexists; repeat split; by rewrite <- ?app_assoc ].
  - by injection Hrun as <- <-.
Qed.

(** If moreover the loop ends and the close call returns, the session ends
    in [sys.exit(0)]. *)
Lemma session_exits_zero typed w :
  close_answer env = Ret tt ->
  (exists e, (run (session_loop env ble_iface typed) w).1 = Raise e) ->
  (run (session env ble_iface typed) w).1 = Raise (SystemExit 0).
Proof.
  intros Hclose [e He].
  unfold session, try_finally, try_except, run in *.
  destruct (session_loop env ble_iface typed w) as [[u|e0|] w1];
    simpl in He; try discriminate.
  destruct (is_KeyboardInterrupt e0); simpl;
    unfold close, mbind, M_bind, bind, extern; by rewrite Hclose.
Qed.

End SessionFacts.

(** ** The program *)

Section MainFacts.

Variable env : Env.

Lemma argv_has_address (argv : list string) raw :
  argv !! 1%nat = Some raw -> (length argv <? 2)%nat = false.
Proof. intros H. apply lookup_lt_Some in H. apply Nat.ltb_ge. lia. Qed.

Lemma run_main_connected argv typed raw ble_iface w :
  argv !! 1%nat = Some raw ->
  interface_answer env (strip raw) = Ret ble_iface ->
  stabilise_answer env = Ret tt ->
  run (main env argv typed) w =
  run (session env ble_iface typed) (w ++ startup_trace (strip raw)).
Proof.
  intros Hargv Hif Hst. unfold main.
  rewrite (argv_has_address argv raw Hargv), Hargv. simpl default.
  step. unfold connecting, try_except, banner.
  unfold run, mbind, M_bind, bind, extern, print, emit, ret.
  rewrite Hif, Hst. unfold startup_trace.
  by rewrite <- !app_assoc.
Qed.

Lemma run_main_no_argument argv typed w :
  (length argv < 2)%nat ->
  run (main env argv typed) w =
  (Raise (SystemExit 1),
   w ++ [Print "Usage: python bimcc.py <BLE_DEVICE_ADDRESS>" newline; SysExit 1]).
Proof.
  intros H. unfold main. apply Nat.ltb_lt in H. rewrite H.
  step. by rewrite <- app_assoc.
Qed.

Lemma run_main_init_fails argv typed raw e w :
  argv !! 1%nat = Some raw ->
  interface_answer env (strip raw) = Raise e ->
  is_Exception e = true ->
  run (main env argv typed) w =
  (Raise (SystemExit 1),
   w ++ [Print ("Attempting to connect to BLE device at address: " +:+ strip raw) newline;
         NewInterface (strip raw);
         Print ("Error initializing BLE interface: " +:+ exn_str e) newline;
         SysExit 1]).
Proof.
  intros Hargv Hif He. unfold main.
  rewrite (argv_has_address argv raw Hargv), Hargv. simpl default.
  step. unfold connecting, try_except.
  unfold run, mbind, M_bind, bind, extern, print, emit, ret, sys_exit,
         mbind, M_bind, bind, emit, raise.
  rewrite Hif, He. by rewrite <- !app_assoc.
Qed.

End MainFacts.

Example strip_demo : strip " AA:BB:CC:DD:EE:01 " = "AA:BB:CC:DD:EE:01".
Proof. reflexivity. Qed.

(** Inner blanks stay; a no-break space (U+00A0) in front and a line
    separator (U+2028) and a tab behind go. *)
Example strip_unicode_demo :
  strip (String "194" (String "160" ("a b" +:+ String "226" (String "128" (String "168" (String "009" ""))))))
  = "a b".
Proof. reflexivity. Qed.

Example strip_blank_demo : strip blank_address = "".
Proof. reflexivity. Qed.

Example main_demo :
  run (main quiet_env demo_argv [Ret ""; Ret "hello"; Raise KeyboardInterrupt]) [] =
  (Raise (SystemExit 0),
   startup_trace "AA:BB:CC:DD:EE:01" ++
   [ Input "Ch0> ";
     Input "Ch0> "; SendText demo_iface "hello" 0; AsyncSleep;
     Input "Ch0> "; Print (newline +:+ "Exiting...") newline;
     Close demo_iface; SysExit 0 ]).
Proof. reflexivity. Qed.

(** C3 as stated fails: the handle exists as soon as the constructor has
    returned, but an interrupt during the two-second sleep that follows ends
    the process with no close call on it. *)
Lemma C3_counterexample_interrupted_sleep :
  interface_answer interrupted_sleep_env (strip " AA:BB:CC:DD:EE:01 ") = Ret demo_iface
  ∧ run (main interrupted_sleep_env demo_argv [Raise KeyboardInterrupt]) [] =
      (Raise KeyboardInterrupt,
       [Print "Attempting to connect to BLE device at address: AA:BB:CC:DD:EE:01" newline;
        NewInterface "AA:BB:CC:DD:EE:01";
        Print "Connected to BLE device!" newline;
        TimeSleep 2])
  ∧ close_calls
      (run (main interrupted_sleep_env demo_argv [Raise KeyboardInterrupt]) []).2 = [].
Proof. repeat split; reflexivity. Qed.

(** C3 (amended).  Once the connection handle exists and [main] has entered the
    session, every way the process can end passes through the close call on
    that handle: in the final history the call occurs once, nothing but
    [sys.exit(0)] follows it, and everything the session did precedes it.
    And the process does end: when no library call hangs, an interrupt or
    any other exception delivered at the input wait, after any number of
    typed lines, ends the run. *)
Theorem C3_session_always_closes
    (env : Env) (argv : list string) (typed : list (Outcome string))
    (raw : string) (ble_iface : BLEInterface) (w : World) :
  argv !! 1%nat = Some raw ->
  interface_answer env (strip raw) = Ret ble_iface ->
  stabilise_answer env = Ret tt ->
  ((run (main env argv typed) w).1 ≠ Pending ->
   exists pre post,
     (run (main env argv typed) w).2 = w ++ pre ++ Close ble_iface :: post
     ∧ close_calls pre = []
     ∧ (post = [] ∨ post = [SysExit 0]))
  ∧ (forall lines e rest,
       typed = map Ret lines ++ Raise e :: rest ->
       (forall w s, send_answer env w s ≠ Pending) ->
       (forall w, yield_answer env w ≠ Pending) ->
       close_answer env ≠ Pending ->
       (run (main env argv typed) w).1 ≠ Pending).
Proof.
  intros Hargv Hif Hst.
  rewrite (run_main_connected env argv typed raw ble_iface w Hargv Hif Hst).
  split.
  - intros Ho.
    destruct (run (session env ble_iface typed) (w ++ startup_trace (strip raw)))
      as [o w'] eqn:Hrun. simpl in *.
    destruct (session_closes env ble_iface typed _ o w' Hrun Ho)
      as (pre & Hc & [(_ & _ & ->)|(e & _ & _ & ->)]).
    + exists (startup_trace (strip raw) ++ pre), [SysExit 0].
      rewrite close_calls_app, Hc. rewrite <- !app_assoc.
      split; [done|]. split; [done|by right].
    + exists (startup_trace (strip raw) ++ pre), [].
      rewrite close_calls_app, Hc. rewrite <- !app_assoc.
      split; [done|]. split; [done|by left].
  - intros lines e rest -> Hsend Hyield Hclose.
    destruct (session_loop_ends env ble_iface lines e rest
                (w ++ startup_trace (strip raw)) Hsend Hyield) as [e' He'].
    unfold session, try_finally, try_except, run in *.
    destruct (session_loop env ble_iface (map Ret lines ++ Raise e :: rest)
                (w ++ startup_trace (strip raw))) as [[u|e0|] w1];
      simpl in He'; try discriminate.
    destruct (is_KeyboardInterrupt e0); simpl;
      unfold close, mbind, M_bind, bind, extern, sys_exit, mbind, M_bind, bind,
             emit, raise; simpl;
      destruct (close_answer env) as [[]| |]; simpl; done.
Qed.

Lemma C3_session_always_closes_witness :
  ((run (main quiet_env demo_argv [Ret "hello"; Raise KeyboardInterrupt]) []).1 ≠ Pending ->
   exists pre post,
     (run (main quiet_env demo_argv [Ret "hello"; Raise KeyboardInterrupt]) []).2 =
       [] ++ pre ++ Close demo_iface :: post
     ∧ close_calls pre = []
     ∧ (post = [] ∨ post = [SysExit 0]))
  ∧ (forall lines e rest,
       [Ret "hello"; Raise KeyboardInterrupt] = map Ret lines ++ Raise e :: rest ->
       (forall w s, send_answer quiet_env w s ≠ Pending) ->
       (forall w, yield_answer quiet_env w ≠ Pending) ->
       close_answer quiet_env ≠ Pending ->
       (run (main quiet_env demo_argv [Ret "hello"; Raise KeyboardInterrupt]) []).1 ≠ Pending).
Proof.
  apply (C3_session_always_closes quiet_env demo_argv
           [Ret "hello"; Raise KeyboardInterrupt] " AA:BB:CC:DD:EE:01 " demo_iface []).
  - reflexivity.
  - reflexivity.
  - reflexivity.
Defined.

(** C6.  In the session loop an empty input line makes no transport send
    call and the loop goes on to the next prompt; the input line "hello"
    makes exactly one send call, with text "hello" and channel index 0. *)
Theorem C6_empty_line_not_sent_hello_sent_once
    (env : Env) (ble_iface : BLEInterface) (w : World) :
  send_calls (run (session_loop env ble_iface [Ret ""]) w).2 = send_calls w
  ∧ (forall typed,
       run (session_loop env ble_iface (Ret "" :: typed)) w =
       run (session_loop env ble_iface typed) (w ++ [Input "Ch0> "]))
  ∧ send_calls (run (session_loop env ble_iface [Ret "hello"]) w).2 =
      send_calls w ++ [SendText ble_iface "hello" 0].
Proof.
  split; [|split].
  - rewrite run_session_loop_cons, run_handle_line_empty. simpl.
    rewrite !send_calls_app. simpl. by rewrite !app_nil_r.
  - intros typed. by rewrite run_session_loop_cons, run_handle_line_empty.
  - rewrite run_session_loop_cons, run_handle_line_text by done.
    destruct (send_answer env (w ++ [Input "Ch0> "]) "hello") as [[]| |].
    + destruct (yield_answer env ((w ++ [Input "Ch0> "]) ++ [SendText ble_iface "hello" 0]))
        as [[]| |]; simpl; rewrite !send_calls_app; simpl; by rewrite ?app_nil_r.
    + simpl. rewrite !send_calls_app. simpl. by rewrite ?app_nil_r.
    + simpl. rewrite !send_calls_app. simpl. by rewrite ?app_nil_r.
Qed.

Example send_demo :
  run (session_loop quiet_env demo_iface [Ret ""; Ret "hello"]) [] =
  (Pending,
   [Input "Ch0> "; Input "Ch0> "; SendText demo_iface "hello" 0; AsyncSleep; Input "Ch0> "]).
Proof. reflexivity. Qed.

(** C8 as stated fails: an exit by user interrupt does not always have
    status 0.  An interrupt that arrives while the constructor is
    connecting, or during the stabilising sleep, escapes [main] and ends the
    process as the interrupt signal does; and an interrupt at the input wait
    followed by a close call that raises ends it with status 1. *)
Lemma C8_counterexample_interrupt_not_status_zero :
  (exit_status (run (main interrupted_connect_env demo_argv []) []).1 = Some Interrupted
   ∧ exit_status (run (main interrupted_connect_env demo_argv []) []).1 ≠ Some (Exited 0))
  ∧ (exit_status (run (main interrupted_sleep_env demo_argv []) []).1 = Some Interrupted
     ∧ exit_status (run (main interrupted_sleep_env demo_argv []) []).1 ≠ Some (Exited 0))
  ∧ (exit_status (run (main failing_close_env demo_argv [Raise KeyboardInterrupt]) []).1
       = Some (Exited 1)
     ∧ exit_status (run (main failing_close_env demo_argv [Raise KeyboardInterrupt]) []).1
       ≠ Some (Exited 0)).
Proof. repeat split; first [ reflexivity | discriminate ]. Qed.

(** C8 (amended).  The process ends through [sys.exit(1)], with status 1,
    when the address argument is missing and when the interface constructor
    fails with an [Exception].  Once connected, with a close call that
    returns, every way the process ends is [sys.exit(0)] right after the
    close call, with status 0; and an interrupt (or any other exception)
    that arrives at the input wait does end it, when no library call
    hangs. *)
Theorem C8_exit_status
    (env : Env) (argv : list string) (typed : list (Outcome string)) (w : World) :
  ((length argv < 2)%nat ->
   (run (main env argv typed) w).1 = Raise (SystemExit 1)
   ∧ exit_status (run (main env argv typed) w).1 = Some (Exited 1))
  ∧ (forall raw e,
       argv !! 1%nat = Some raw ->
       interface_answer env (strip raw) = Raise e ->
       is_Exception e = true ->
       (run (main env argv typed) w).1 = Raise (SystemExit 1)
       ∧ exit_status (run (main env argv typed) w).1 = Some (Exited 1))
  ∧ (forall raw ble_iface,
       argv !! 1%nat = Some raw ->
       interface_answer env (strip raw) = Ret ble_iface ->
       stabilise_answer env = Ret tt ->
       close_answer env = Ret tt ->
       ((run (main env argv typed) w).1 ≠ Pending ->
        (run (main env argv typed) w).1 = Raise (SystemExit 0)
        ∧ exit_status (run (main env argv typed) w).1 = Some (Exited 0)
        ∧ exists pre,
            (run (main env argv typed) w).2 =
              w ++ pre ++ [Close ble_iface; SysExit 0])
       ∧ (forall lines e rest,
            typed = map Ret lines ++ Raise e :: rest ->
            (forall w s, send_answer env w s ≠ Pending) ->
            (forall w, yield_answer env w ≠ Pending) ->
            (run (main env argv typed) w).1 ≠ Pending)).
Proof.
  split; [|split].
  - intros H. by rewrite run_main_no_argument.
  - intros raw e Hargv Hif He. by rewrite (run_main_init_fails env argv typed raw e).
  - intros raw ble_iface Hargv Hif Hst Hclose.
    rewrite (run_main_connected env _ _ raw ble_iface w Hargv Hif Hst).
    split.
    + intros Ho.
      destruct (run (session env ble_iface typed) (w ++ startup_trace (strip raw)))
        as [o w'] eqn:Hrun. simpl in *.
      destruct (session_closes env ble_iface typed _ o w' Hrun Ho)
        as (pre & _ & [(_ & -> & ->)|(e & He & _)]).
      * split; [done|]. split; [done|].
        exists (startup_trace (strip raw) ++ pre). by rewrite <- !app_assoc.
      * rewrite Hclose in He. discriminate.
    + intros lines e rest -> Hsend Hyield.
      rewrite session_exits_zero; [done|done|].
      by apply session_loop_ends.
Qed.

Lemma C8_exit_status_witness :
  ((run (main quiet_env ["bimcc.py"] []) []).1 = Raise (SystemExit 1)
   ∧ exit_status (run (main quiet_env ["bimcc.py"] []) []).1 = Some (Exited 1))
  ∧ ((run (main refusing_env demo_argv []) []).1 = Raise (SystemExit 1)
     ∧ exit_status (run (main refusing_env demo_argv []) []).1 = Some (Exited 1))
  ∧ (((run (main quiet_env demo_argv [Ret "hello"; Raise KeyboardInterrupt]) []).1
        ≠ Pending ->
      (run (main quiet_env demo_argv [Ret "hello"; Raise KeyboardInterrupt]) []).1
        = Raise (SystemExit 0)
      ∧ exit_status
          (run (main quiet_env demo_argv [Ret "hello"; Raise KeyboardInterrupt]) []).1
        = Some (Exited 0)
      ∧ exists pre,
          (run (main quiet_env demo_argv [Ret "hello"; Raise KeyboardInterrupt]) []).2 =
            [] ++ pre ++ [Close demo_iface; SysExit 0])
     ∧ (forall lines e rest,
          [Ret "hello"; Raise KeyboardInterrupt] = map Ret lines ++ Raise e :: rest ->
          (forall w s, send_answer quiet_env w s ≠ Pending) ->
          (forall w, yield_answer quiet_env w ≠ Pending) ->
          (run (main quiet_env demo_argv [Ret "hello"; Raise KeyboardInterrupt]) []).1
            ≠ Pending)).
Proof.
  split; [|split].
  - apply (proj1 (C8_exit_status quiet_env ["bimcc.py"] [] [])). simpl. lia.
  - apply (proj1 (proj2 (C8_exit_status refusing_env demo_argv [] []))
             " AA:BB:CC:DD:EE:01 " (PyException "No BLE peripheral found."));
      reflexivity.
  - apply (proj2 (proj2 (C8_exit_status quiet_env demo_argv
                           [Ret "hello"; Raise KeyboardInterrupt] []))
             " AA:BB:CC:DD:EE:01 " demo_iface); reflexivity.
Defined.

(** * Further properties *)

(** ** Discovery override *)

Lemma first_match_some_inv lower (D : list BLEDevice) al d :
  first_match lower D al = Some d ->
  exists pre post,
    D = pre ++ d :: post
    ∧ (forall x, x ∈ pre -> lower (address x) ≠ al)
    ∧ lower (address d) = al.
Proof.
  induction D as [|x D IH]; [done|]. simpl. unfold address_matches.
  case_bool_decide as Hx.
  - intros [= ->]. exists [], D. split; [done|]. split; [|done].
    intros y Hy. by apply elem_of_nil in Hy.
  - intros H. destruct (IH H) as (pre & post & -> & Hpre & Hd).
    exists (x :: pre), post. split; [done|]. split; [|done].
    intros y Hy. apply elem_of_cons in Hy as [->|Hy]; [done|by apply Hpre].
Qed.

Lemma first_match_none_inv lower (D : list BLEDevice) al :
  first_match lower D al = None ->
  forall d, d ∈ D -> lower (address d) ≠ al.
Proof.
  induction D as [|x D IH]; intros H d Hd.
  - by apply elem_of_nil in Hd.
  - simpl in H. unfold address_matches in H. case_bool_decide as Hx; [done|].
    apply elem_of_cons in Hd as [->|Hd]; [done|by apply IH].
Qed.

(** The override answers with a scanned device or not at all: a returned
    descriptor is an element of the scan result, its address equals the
    target up to case, and no descriptor listed before it does; and the
    not-found exception is raised exactly when no scanned address equals the
    target up to case. *)
Theorem find_device_sound_and_complete
    (lower : string -> string) (D : list BLEDevice) (a : string) (w : World) :
  (forall d, (run (custom_find_device lower (fun _ => Ret D) a) w).1 = Ret d ->
     exists pre post,
       D = pre ++ d :: post
       ∧ (forall x, x ∈ pre -> lower (address x) ≠ lower a)
       ∧ lower (address d) = lower a)
  ∧ ((run (custom_find_device lower (fun _ => Ret D) a) w).1 =
       Raise (PyException (not_found_message a))
     <-> forall d, d ∈ D -> lower (address d) ≠ lower a).
Proof.
  rewrite run_custom_find_device. simpl. split.
  - intros d Hd. destruct (first_match lower D (lower a)) as [d'|] eqn:E; [|done].
    injection Hd as ->. by apply first_match_some_inv.
  - split.
    + intros H. destruct (first_match lower D (lower a)) eqn:E; [done|].
      by apply first_match_none_inv.
    + intros H. by rewrite first_match_none.
Qed.

(** When the scan itself fails, the override fails the same way at once: it
    prints nothing, not even the heading, and compares nothing. *)
Theorem find_device_scan_failure_propagates
    (lower : string -> string) (scan_answer : World -> Outcome (list BLEDevice))
    (a : string) (w : World) (e : exn) :
  scan_answer w = Raise e ->
  run (custom_find_device lower scan_answer a) w = (Raise e, w ++ [Scan]).
Proof.
  intros H. unfold custom_find_device. step. by rewrite H.
Qed.

Lemma find_device_scan_failure_propagates_witness :
  run (custom_find_device ascii_lower
         (fun _ => Raise (OtherError "BleakError" "adapter is off"))
         "AA:BB:CC:DD:EE:01") [] =
  (Raise (OtherError "BleakError" "adapter is off"), [] ++ [Scan]).
Proof.
  apply (find_device_scan_failure_propagates ascii_lower
           (fun _ => Raise (OtherError "BleakError" "adapter is off"))
           "AA:BB:CC:DD:EE:01" [] (OtherError "BleakError" "adapter is off")).
  reflexivity.
Defined.

(** The letter case of the target does not select the device: two targets
    that are equal up to case get the same descriptor from the same scan. *)
Theorem find_device_target_case_irrelevant
    (lower : string -> string) (D : list BLEDevice) (a a' : string)
    (w : World) (d : BLEDevice) :
  lower a = lower a' ->
  (run (custom_find_device lower (fun _ => Ret D) a) w).1 = Ret d
  <-> (run (custom_find_device lower (fun _ => Ret D) a') w).1 = Ret d.
Proof.
  intros H. rewrite !run_custom_find_device. simpl. rewrite H.
  by destruct (first_match lower D (lower a')).
Qed.

Lemma find_device_target_case_irrelevant_witness :
  (run (custom_find_device ascii_lower (fun _ => Ret [node_b; node_a])
          "aa:bb:cc:dd:ee:01") []).1 = Ret node_a
  <-> (run (custom_find_device ascii_lower (fun _ => Ret [node_b; node_a])
             "Aa:Bb:Cc:Dd:Ee:01") []).1 = Ret node_a.
Proof.
  apply (find_device_target_case_irrelevant ascii_lower [node_b; node_a]
           "aa:bb:cc:dd:ee:01" "Aa:Bb:Cc:Dd:Ee:01" [] node_a).
  vm_compute. reflexivity.
Defined.

(** ** Connection override *)

(** With a non-empty address the override talks to the client it builds and
    to nothing else: what it adds to the history is an initial part of
    constructor, connect, discover, in that order (so no scan, no close, no
    second connect); and when it returns, all three calls were made and the
    client returned is the one built on the given address. *)
Theorem connect_direct_path_shape
    (env : Env) (self : BLEInterface) (a : string) (w : World) :
  a ≠ "" ->
  exists t,
    (run (custom_connect env self (Some a)) w).2 = w ++ t
    ∧ t `prefix_of` [NewClient a; ClientConnect a; ClientDiscover a]
    ∧ forall client,
        (run (custom_connect env self (Some a)) w).1 = Ret client ->
        client_address client = a
        ∧ t = [NewClient a; ClientConnect a; ClientDiscover a].
Proof.
  intros Ha. rewrite run_custom_connect_truthy by done.
  destruct (new_client_answer env) as [[]| |];
    [destruct (connect_answer env) as [[]| |];
      [destruct (discover_answer env) as [[]| |]|..]|..];
    simpl; eexists; (split; [reflexivity|]);
    (split; [first [ by exists [] | by exists [ClientDiscover a]
                   | by exists [ClientConnect a; ClientDiscover a] ] |]);
    intros client [=]; by subst.
Qed.

Lemma connect_direct_path_shape_witness :
  exists t,
    (run (custom_connect quiet_env demo_iface (Some "AA:BB:CC:DD:EE:01")) []).2 = [] ++ t
    ∧ t `prefix_of` [NewClient "AA:BB:CC:DD:EE:01"; ClientConnect "AA:BB:CC:DD:EE:01";
                     ClientDiscover "AA:BB:CC:DD:EE:01"]
    ∧ forall client,
        (run (custom_connect quiet_env demo_iface (Some "AA:BB:CC:DD:EE:01")) []).1
          = Ret client ->
        client_address client = "AA:BB:CC:DD:EE:01"
        ∧ t = [NewClient "AA:BB:CC:DD:EE:01"; ClientConnect "AA:BB:CC:DD:EE:01";
               ClientDiscover "AA:BB:CC:DD:EE:01"].
Proof.
  apply (connect_direct_path_shape quiet_env demo_iface "AA:BB:CC:DD:EE:01" []).
  discriminate.
Defined.

(** A failed connect is final: its exception is what the override raises,
    after one connect call, and service discovery is not attempted. *)
Theorem connect_failure_propagates
    (env : Env) (self : BLEInterface) (a : string) (w : World) (e : exn) :
  a ≠ "" ->
  new_client_answer env = Ret tt ->
  connect_answer env = Raise e ->
  run (custom_connect env self (Some a)) w =
    (Raise e, w ++ [NewClient a; ClientConnect a]).
Proof.
  intros Ha Hn Hc. rewrite run_custom_connect_truthy by done. by rewrite Hn, Hc.
Qed.

Lemma connect_failure_propagates_witness :
  run (custom_connect
         (quiet_like (Raise (OtherError "BleakError" "timeout")) (Ret tt)
            (Ret demo_iface) (Ret tt) (Ret tt) (Ret tt))
         demo_iface (Some "AA:BB:CC:DD:EE:01")) [] =
    (Raise (OtherError "BleakError" "timeout"),
     [] ++ [NewClient "AA:BB:CC:DD:EE:01"; ClientConnect "AA:BB:CC:DD:EE:01"]).
Proof.
  apply (connect_failure_propagates
           (quiet_like (Raise (OtherError "BleakError" "timeout")) (Ret tt)
              (Ret demo_iface) (Ret tt) (Ret tt) (Ret tt))
           demo_iface "AA:BB:CC:DD:EE:01" [] (OtherError "BleakError" "timeout")).
  - discriminate.
  - reflexivity.
  - reflexivity.
Defined.

(** A failed service discovery, after a connect that succeeded, is raised
    to the caller as it is; the connected client is not returned. *)
Theorem discover_failure_propagates
    (env : Env) (self : BLEInterface) (a : string) (w : World) (e : exn) :
  a ≠ "" ->
  new_client_answer env = Ret tt ->
  connect_answer env = Ret tt ->
  discover_answer env = Raise e ->
  run (custom_connect env self (Some a)) w =
    (Raise e, w ++ [NewClient a; ClientConnect a; ClientDiscover a]).
Proof.
  intros Ha Hn Hc Hd. rewrite run_custom_connect_truthy by done.
  by rewrite Hn, Hc, Hd.
Qed.

Lemma discover_failure_propagates_witness :
  run (custom_connect
         (quiet_like (Ret tt) (Raise (OtherError "BleakError" "no services"))
            (Ret demo_iface) (Ret tt) (Ret tt) (Ret tt))
         demo_iface (Some "AA:BB:CC:DD:EE:01")) [] =
    (Raise (OtherError "BleakError" "no services"),
     [] ++ [NewClient "AA:BB:CC:DD:EE:01"; ClientConnect "AA:BB:CC:DD:EE:01";
            ClientDiscover "AA:BB:CC:DD:EE:01"]).
Proof.
  apply (discover_failure_propagates
           (quiet_like (Ret tt) (Raise (OtherError "BleakError" "no services"))
              (Ret demo_iface) (Ret tt) (Ret tt) (Ret tt))
           demo_iface "AA:BB:CC:DD:EE:01" [] (OtherError "BleakError" "no services")).
  - discriminate.
  - reflexivity.
  - reflexivity.
  - reflexivity.
Defined.

Lemma lstrip_all_space_bounded (n : nat) :
  forall s, (String.length s ≤ n)%nat -> all_space s = true -> lstrip s = "".
Proof.
  induction n as [|n IH]; intros s Hlen H.
  - destruct s; [done|]. simpl in Hlen. lia.
  - destruct s as [|c1 s1]; [done|]. cbn [lstrip all_space String.length] in *.
    destruct (is_space1 c1); [apply IH; [lia|done]|].
    destruct s1 as [|c2 s2]; [done|]. cbn [String.length] in Hlen.
    destruct (is_space2 c1 c2); [apply IH; [lia|done]|].
    destruct s2 as [|c3 s3]; [done|]. cbn [String.length] in Hlen.
    apply andb_true_iff in H as [H3 Hs]. rewrite H3. apply IH; [lia|done].
Qed.

Lemma strip_all_space s : all_space s = true -> strip s = "".
Proof.
  intros H. unfold strip.
  by rewrite (lstrip_all_space_bounded (String.length s) s).
Qed.

(** Whatever the session does is added after the history it starts from. *)
Lemma session_appends env ble_iface typed w :
  exists t, (run (session env ble_iface typed) w).2 = w ++ t.
Proof.
  destruct (session_loop_trace env ble_iface typed w) as (t & Ht & _ & _).
  unfold session, try_finally, try_except, run in *.
  destruct (session_loop env ble_iface typed w) as [[u|e|] w1];
    simpl in Ht; subst w1.
  - unfold close, mbind, M_bind, bind, extern, sys_exit, mbind, M_bind, bind,
           emit, raise; simpl.
    destruct (close_answer env) as [[]| |]; simpl; eexists;
      by rewrite <- ?app_assoc.
  - destruct (is_KeyboardInterrupt e); simpl;
      unfold close, mbind, M_bind, bind, extern, sys_exit, mbind, M_bind, bind,
             emit, raise, print, emit; simpl;
      destruct (close_answer env) as [[]| |]; simpl; eexists;
        by rewrite <- ?app_assoc.
  - by eexists.
Qed.

(** With an address argument, the first two things [main] does are the
    announcement and the construction of the interface on the stripped
    address. *)
Lemma main_starts_with_constructor env argv typed raw w :
  argv !! 1%nat = Some raw ->
  exists t,
    (run (main env argv typed) w).2 =
      w ++ [Print ("Attempting to connect to BLE device at address: " +:+ strip raw) newline;
            NewInterface (strip raw)] ++ t.
Proof.
  intros Hargv.
  destruct (interface_answer env (strip raw)) as [ble_iface|e|] eqn:Hif;
    [destruct (stabilise_answer env) as [[]|e|] eqn:Hst|..].
  - rewrite (run_main_connected env argv typed raw ble_iface w Hargv Hif Hst).
    destruct (session_appends env ble_iface typed (w ++ startup_trace (strip raw)))
      as [t Ht].
    rewrite Ht. unfold startup_trace. eexists. rewrite <- !app_assoc. simpl.
    reflexivity.
  - unfold main.
    rewrite (argv_has_address argv raw Hargv), Hargv. simpl default.
    step. unfold connecting, try_except.
    unfold run, mbind, M_bind, bind, extern, print, emit, ret, sys_exit,
           mbind, M_bind, bind, emit, raise.
    rewrite Hif, Hst.
    destruct (is_Exception e); eexists; rewrite <- ?app_assoc; simpl; reflexivity.
  - unfold main.
    rewrite (argv_has_address argv raw Hargv), Hargv. simpl default.
    step. unfold connecting, try_except.
    unfold run, mbind, M_bind, bind, extern, print, emit, ret.
    rewrite Hif, Hst. eexists; rewrite <- ?app_assoc; simpl; reflexivity.
  - unfold main.
    rewrite (argv_has_address argv raw Hargv), Hargv. simpl default.
    step. unfold connecting, try_except.
    unfold run, mbind, M_bind, bind, extern, print, emit, ret, sys_exit,
           mbind, M_bind, bind, emit, raise.
    rewrite Hif.
    destruct (is_Exception e); eexists; rewrite <- ?app_assoc; simpl; reflexivity.
  - unfold main.
    rewrite (argv_has_address argv raw Hargv), Hargv. simpl default.
    step. unfold connecting, try_except.
    unfold run, mbind, M_bind, bind, extern, print, emit, ret.
    rewrite Hif. eexists; rewrite <- ?app_assoc; simpl; reflexivity.
Qed.

(** An address argument made of white space only (ASCII or Unicode) is
    stripped by [main] to the empty string: [main] announces an empty
    address and constructs the interface on [""], in every environment.
    Given that address, the connection override takes the discovery
    fallback rather than the direct path. *)
Theorem blank_argument_takes_fallback
    (env : Env) (argv : list string) (typed : list (Outcome string))
    (raw : string) (self : BLEInterface) (w : World) :
  argv !! 1%nat = Some raw ->
  all_space raw = true ->
  (exists t,
     (run (main env argv typed) w).2 =
       w ++ [Print "Attempting to connect to BLE device at address: " newline;
             NewInterface ""] ++ t)
  ∧ forall w',
      run (custom_connect env self (Some (strip raw))) w' =
        (original_answer env, w' ++ [OriginalConnect self (Some "")]).
Proof.
  intros Hargv Hblank. split.
  - destruct (main_starts_with_constructor env argv typed raw w Hargv) as [t Ht].
    exists t. rewrite Ht. by rewrite (strip_all_space raw Hblank).
  - intros w'. rewrite strip_all_space by done. by apply run_custom_connect_falsy.
Qed.

Lemma blank_argument_takes_fallback_witness :
  (exists t,
     (run (main quiet_env blank_argv [Raise KeyboardInterrupt]) []).2 =
       [] ++ [Print "Attempting to connect to BLE device at address: " newline;
              NewInterface ""] ++ t)
  ∧ forall w',
      run (custom_connect quiet_env demo_iface (Some (strip blank_address))) w' =
        (original_answer quiet_env, w' ++ [OriginalConnect demo_iface (Some "")]).
Proof.
  apply (blank_argument_takes_fallback quiet_env blank_argv [Raise KeyboardInterrupt]
           blank_address demo_iface []); reflexivity.
Defined.

(** ** Inbound handler *)

Lemma string_app_assoc (s1 s2 s3 : string) : (s1 +:+ s2) +:+ s3 = s1 +:+ (s2 +:+ s3).
Proof.
  induction s1 as [|c s1 IH]; [done|].
  change (String c ((s1 +:+ s2) +:+ s3) = String c (s1 +:+ (s2 +:+ s3))).
  by rewrite IH.
Qed.

Lemma string_app_empty_r (s : string) : s +:+ "" = s.
Proof.
  induction s as [|c s IH]; [done|].
  change (String c (s +:+ "") = String c s). by rewrite IH.
Qed.

Lemma console_app w1 w2 : console (w1 ++ w2) = console w1 +:+ console w2.
Proof.
  induction w1 as [|e w1 IH]; [done|].
  destruct e; cbn [console app]; try done.
  by rewrite IH, !string_app_assoc.
Qed.

Lemma run_onReceive_no_text packet interface w :
  decoded_text packet = None ->
  run (onReceive packet interface) w = (Ret tt, w).
Proof.
  intros H. unfold onReceive.
  destruct (packet_falsy packet); [done|].
  destruct packet as [p|]; simpl in *; [|by rewrite dict_contains_false].
  destruct (decoded_field p) as [d|]; simpl in *.
  - by rewrite (dict_contains_false d "text" H).
  - by rewrite dict_contains_false.
Qed.

(** The handler cannot fail: on every event it returns normally, and it
    either leaves the history as it was (no decoded text) or adds exactly
    the two prints of a text event.  In particular the subscript
    [decoded["text"]] never raises [KeyError], and the handler never calls
    into the transport. *)
Theorem onReceive_never_raises
    (packet : option Packet) (interface : option BLEInterface) (w : World) :
  (run (onReceive packet interface) w).1 = Ret tt
  ∧ ((decoded_text packet = None ∧ (run (onReceive packet interface) w).2 = w)
     ∨ (exists p d m,
          packet = Some p ∧ decoded_field p = Some d ∧ d !! "text" = Some m
          ∧ (run (onReceive packet interface) w).2 =
              w ++ [Print (newline
                           +:+ py_str (default (VStr "unknown") (fields p !! "fromId"))
                           +:+ ": " +:+ py_str m) newline;
                    Print "Ch0> " ""])).
Proof.
  destruct (decoded_text packet) as [m|] eqn:E.
  - destruct packet as [p|]; [|done]. simpl in E.
    destruct (decoded_field p) as [d|] eqn:Ed; [|done]. simpl in E.
    rewrite (run_onReceive_text p d m interface w Ed E). split; [done|].
    right. by exists p, d, m.
  - rewrite run_onReceive_no_text by done. split; [done|]. by left.
Qed.

(** A text event that names no sender is shown as coming from "unknown":
    the console gets a blank line break, "unknown: " and the text, a line
    end, and the prompt. *)
Theorem onReceive_sender_defaults_to_unknown
    (p : Packet) (d : gmap string pyval) (m : pyval)
    (interface : option BLEInterface) (w : World) :
  decoded_field p = Some d ->
  d !! "text" = Some m ->
  fields p !! "fromId" = None ->
  console (run (onReceive (Some p) interface) w).2 =
    console w +:+ newline +:+ "unknown: " +:+ py_str m +:+ newline +:+ "Ch0> ".
Proof.
  intros Hd Ht Hs. rewrite (run_onReceive_text p d m interface w Hd Ht), Hs.
  simpl. rewrite console_app. simpl.
  by rewrite !string_app_assoc.
Qed.

Lemma onReceive_sender_defaults_to_unknown_witness :
  console (run (onReceive (Some anonymous_hi) None) []).2 =
    console [] +:+ newline +:+ "unknown: " +:+ py_str (VStr "hi") +:+ newline +:+ "Ch0> ".
Proof.
  apply (onReceive_sender_defaults_to_unknown anonymous_hi
           {[ "text" := VStr "hi" ]} (VStr "hi") None []).
  - reflexivity.
  - vm_compute. reflexivity.
  - vm_compute. reflexivity.
Defined.

(** ** Session loop *)

Section SessionRuns.

Variable env : Env.
Variable ble_iface : BLEInterface.

(** As long as lines arrive and every send and yield returns, the loop
    keeps waiting: one send per non-empty line, in order, then the next
    prompt. *)
Lemma session_loop_lines lines w :
  (forall w s, send_answer env w s = Ret tt) ->
  (forall w, yield_answer env w = Ret tt) ->
  exists t,
    run (session_loop env ble_iface (map Ret lines)) w = (Pending, w ++ t)
    ∧ send_calls t =
        map (fun s => SendText ble_iface s 0) (filter (fun s => s ≠ "") lines)
    ∧ close_calls t = [].
Proof.
  intros Hsend Hyield. revert w.
  induction lines as [|msg lines IH]; intros w.
  - exists [Input "Ch0> "]. by repeat split.
  - simpl map. rewrite run_session_loop_cons.
    destruct (decide (msg = "")) as [->|Hmsg].
    + rewrite run_handle_line_empty.
      destruct (IH (w ++ [Input "Ch0> "])) as (t & Hrun & Hs & Hc).
      exists (Input "Ch0> " :: t). rewrite Hrun.
      rewrite filter_cons_False by (by intros ?).
      split; [by rewrite <- app_assoc|]. by split.
    + rewrite run_handle_line_text, Hsend, Hyield by done.
      destruct (IH ((w ++ [Input "Ch0> "]) ++ [SendText ble_iface msg 0; AsyncSleep]))
        as (t & Hrun & Hs & Hc).
      exists (Input "Ch0> " :: SendText ble_iface msg 0 :: AsyncSleep :: t).
      rewrite Hrun. rewrite filter_cons_True by done.
      split; [by rewrite <- !app_assoc|]. split; [|done].
      simpl. by rewrite Hs.
Qed.

Lemma run_session_pending typed w w1 :
  run (session_loop env ble_iface typed) w = (Pending, w1) ->
  run (session env ble_iface typed) w = (Pending, w1).
Proof.
  intros H. unfold session, try_finally, try_except, run in *. by rewrite H.
Qed.

(** How the [try] statement ends once the loop has ended by an exception:
    the exit notice for an interrupt only, then the close call, then, if
    that returns, [sys.exit(0)]; if it raises, its exception. *)
Lemma run_session_of_loop typed w e w1 :
  run (session_loop env ble_iface typed) w = (Raise e, w1) ->
  run (session env ble_iface typed) w =
  let w2 := if is_KeyboardInterrupt e
            then w1 ++ [Print (newline +:+ "Exiting...") newline] else w1 in
  match close_answer env with
  | Ret _ => (Raise (SystemExit 0), w2 ++ [Close ble_iface; SysExit 0])
  | Raise e' => (Raise e', w2 ++ [Close ble_iface])
  | Pending => (Pending, w2 ++ [Close ble_iface])
  end.
Proof.
  intros H. unfold session, try_finally, try_except, run in *. rewrite H.
  destruct (is_KeyboardInterrupt e); simpl;
    unfold close, mbind, M_bind, bind, extern, sys_exit, mbind, M_bind, bind,
           emit, raise, print, emit; simpl;
    destruct (close_answer env) as [[]| |]; simpl; by rewrite <- ?app_assoc.
Qed.

End SessionRuns.

(** Under an environment whose sends and yields return, the transport is
    asked to send exactly the non-empty typed lines, each once, unchanged, in
    the order typed and on channel 0. *)
Theorem session_sends_nonempty_lines_in_order
    (env : Env) (ble_iface : BLEInterface) (lines : list string) (w : World) :
  (forall w s, send_answer env w s = Ret tt) ->
  (forall w, yield_answer env w = Ret tt) ->
  send_calls (run (session_loop env ble_iface (map Ret lines)) w).2 =
    send_calls w
    ++ map (fun s => SendText ble_iface s 0) (filter (fun s => s ≠ "") lines).
Proof.
  intros Hsend Hyield.
  destruct (session_loop_lines env ble_iface lines w Hsend Hyield)
    as (t & Hrun & Hs & _).
  rewrite Hrun. simpl. by rewrite send_calls_app, Hs.
Qed.

Lemma session_sends_nonempty_lines_in_order_witness :
  send_calls (run (session_loop quiet_env demo_iface
                     (map Ret ["hi"; ""; " "; "there"])) []).2 =
    send_calls []
    ++ map (fun s => SendText demo_iface s 0)
         (filter (fun s => s ≠ "") ["hi"; ""; " "; "there"]).
Proof.
  apply (session_sends_nonempty_lines_in_order quiet_env demo_iface
           ["hi"; ""; " "; "there"] []).
  - reflexivity.
  - reflexivity.
Defined.

(** The session has no exit of its own: while the user only types lines and
    the transport keeps answering, the connected program neither ends nor
    closes the connection; it is left waiting at the prompt. *)
Theorem session_never_ends_by_itself
    (env : Env) (argv : list string) (lines : list string)
    (raw : string) (ble_iface : BLEInterface) (w : World) :
  argv !! 1%nat = Some raw ->
  interface_answer env (strip raw) = Ret ble_iface ->
  stabilise_answer env = Ret tt ->
  (forall w s, send_answer env w s = Ret tt) ->
  (forall w, yield_answer env w = Ret tt) ->
  (run (main env argv (map Ret lines)) w).1 = Pending
  ∧ exit_status (run (main env argv (map Ret lines)) w).1 = None
  ∧ close_calls (run (main env argv (map Ret lines)) w).2 = close_calls w.
Proof.
  intros Hargv Hif Hst Hsend Hyield.
  rewrite (run_main_connected env argv _ raw ble_iface w Hargv Hif Hst).
  destruct (session_loop_lines env ble_iface lines (w ++ startup_trace (strip raw))
              Hsend Hyield) as (t & Hrun & _ & Hc).
  rewrite (run_session_pending env ble_iface _ _ _ Hrun). simpl.
  split; [done|]. split; [done|].
  rewrite !close_calls_app, Hc. simpl. by rewrite !app_nil_r.
Qed.

Lemma session_never_ends_by_itself_witness :
  (run (main quiet_env demo_argv (map Ret ["hi"; ""])) []).1 = Pending
  ∧ exit_status (run (main quiet_env demo_argv (map Ret ["hi"; ""])) []).1 = None
  ∧ close_calls (run (main quiet_env demo_argv (map Ret ["hi"; ""])) []).2 = close_calls [].
Proof.
  apply (session_never_ends_by_itself quiet_env demo_argv ["hi"; ""]
           " AA:BB:CC:DD:EE:01 " demo_iface []); reflexivity.
Defined.



(** The exit notice belongs to the interrupt alone.  Whatever exception
    arrives at the input wait, the session closes the connection and exits
    with status 0; "Exiting..." is printed before that for
    [KeyboardInterrupt] and for nothing else (end of input and task
    cancellation end the program silently). *)
Theorem exit_notice_only_on_interrupt
    (env : Env) (ble_iface : BLEInterface) (e : exn)
    (rest : list (Outcome string)) (w : World) :
  close_answer env = Ret tt ->
  run (session env ble_iface (Raise e :: rest)) w =
    (Raise (SystemExit 0),
     w ++ [Input "Ch0> "]
       ++ (if is_KeyboardInterrupt e
           then [Print (newline +:+ "Exiting...") newline] else [])
       ++ [Close ble_iface; SysExit 0]).
Proof.
  intros Hclose.
  rewrite (run_session_of_loop env ble_iface _ _ e (w ++ [Input "Ch0> "]))
    by (by rewrite run_session_loop_cons).
  rewrite Hclose. cbn zeta.
  destruct (is_KeyboardInterrupt e); by rewrite <- !app_assoc.
Qed.

Lemma exit_notice_only_on_interrupt_witness :
  run (session quiet_env demo_iface (Raise EOFError :: [])) [] =
    (Raise (SystemExit 0),
     [] ++ [Input "Ch0> "]
        ++ (if is_KeyboardInterrupt EOFError
            then [Print (newline +:+ "Exiting...") newline] else [])
        ++ [Close demo_iface; SysExit 0]).
Proof.
  apply (exit_notice_only_on_interrupt quiet_env demo_iface EOFError [] []).
  reflexivity.
Defined.

(** When the close call itself raises, [sys.exit(0)] is not reached: the
    session ends with the close call as its last action and with the
    exception of the close call, which replaces the one that ended the
    loop. *)
Theorem close_failure_skips_exit
    (env : Env) (ble_iface : BLEInterface) (typed : list (Outcome string))
    (w w1 : World) (e0 e : exn) :
  run (session_loop env ble_iface typed) w = (Raise e0, w1) ->
  close_answer env = Raise e ->
  (run (session env ble_iface typed) w).1 = Raise e
  ∧ last (run (session env ble_iface typed) w).2 = Some (Close ble_iface).
Proof.
  intros Hloop Hclose.
  rewrite (run_session_of_loop env ble_iface typed w e0 w1 Hloop), Hclose.
  cbn zeta. simpl. split; [done|]. by rewrite last_snoc.
Qed.

Lemma close_failure_skips_exit_witness :
  (run (session (quiet_like (Ret tt) (Ret tt) (Ret demo_iface) (Ret tt) (Ret tt)
                   (Raise (OtherError "BleakError" "already gone")))
          demo_iface [Raise KeyboardInterrupt]) []).1
    = Raise (OtherError "BleakError" "already gone")
  ∧ last (run (session (quiet_like (Ret tt) (Ret tt) (Ret demo_iface) (Ret tt) (Ret tt)
                          (Raise (OtherError "BleakError" "already gone")))
                 demo_iface [Raise KeyboardInterrupt]) []).2
    = Some (Close demo_iface).
Proof.
  apply (close_failure_skips_exit
           (quiet_like (Ret tt) (Ret tt) (Ret demo_iface) (Ret tt) (Ret tt)
              (Raise (OtherError "BleakError" "already gone")))
           demo_iface [Raise KeyboardInterrupt] [] [Input "Ch0> "]
           KeyboardInterrupt (OtherError "BleakError" "already gone")).
  - reflexivity.
  - reflexivity.
Defined.

(** ** Connecting *)

(** If the two-second stabilising sleep raises after the interface has been
    constructed, [main] ends without ever calling close on it: an
    [Exception] is reported as an initialisation error with exit status 1,
    anything else (an interrupt) escapes as it is.  The session is not
    entered in either case. *)
Theorem sleep_failure_leaves_interface_open
    (env : Env) (argv : list string) (typed : list (Outcome string))
    (raw : string) (ble_iface : BLEInterface) (e : exn) (w : World) :
  argv !! 1%nat = Some raw ->
  interface_answer env (strip raw) = Ret ble_iface ->
  stabilise_answer env = Raise e ->
  run (main env argv typed) w =
    (Raise (if is_Exception e then SystemExit 1 else e),
     w ++ [Print ("Attempting to connect to BLE device at address: " +:+ strip raw) newline;
           NewInterface (strip raw);
           Print "Connected to BLE device!" newline;
           TimeSleep 2]
       ++ (if is_Exception e
           then [Print ("Error initializing BLE interface: " +:+ exn_str e) newline;
                 SysExit 1]
           else []))
  ∧ close_calls (run (main env argv typed) w).2 = close_calls w.
Proof.
  intros Hargv Hif Hst.
  assert (Hrun : run (main env argv typed) w =
    (Raise (if is_Exception e then SystemExit 1 else e),
     w ++ [Print ("Attempting to connect to BLE device at address: " +:+ strip raw) newline;
           NewInterface (strip raw);
           Print "Connected to BLE device!" newline;
           TimeSleep 2]
       ++ (if is_Exception e
           then [Print ("Error initializing BLE interface: " +:+ exn_str e) newline;
                 SysExit 1]
           else []))).
  { unfold main.
    rewrite (argv_has_address argv raw Hargv), Hargv. simpl default.
    step. unfold connecting, try_except.
    unfold run, mbind, M_bind, bind, extern, print, emit, ret, sys_exit,
           mbind, M_bind, bind, emit, raise.
    rewrite Hif, Hst.
    destruct (is_Exception e); by rewrite <- ?app_assoc, ?app_nil_r. }
  split; [done|]. rewrite Hrun. simpl.
  rewrite !close_calls_app. destruct (is_Exception e); simpl; by rewrite !app_nil_r.
Qed.

Lemma sleep_failure_leaves_interface_open_witness :
  run (main (quiet_like (Ret tt) (Ret tt) (Ret demo_iface) (Raise KeyboardInterrupt)
               (Ret tt) (Ret tt))
         demo_argv [Ret "hello"]) [] =
    (Raise (if is_Exception KeyboardInterrupt then SystemExit 1 else KeyboardInterrupt),
     [] ++ [Print ("Attempting to connect to BLE device at address: "
                   +:+ strip " AA:BB:CC:DD:EE:01 ") newline;
            NewInterface (strip " AA:BB:CC:DD:EE:01 ");
            Print "Connected to BLE device!" newline;
            TimeSleep 2]
        ++ (if is_Exception KeyboardInterrupt
            then [Print ("Error initializing BLE interface: "
                         +:+ exn_str KeyboardInterrupt) newline;
                  SysExit 1]
            else []))
  ∧ close_calls
      (run (main (quiet_like (Ret tt) (Ret tt) (Ret demo_iface) (Raise KeyboardInterrupt)
                    (Ret tt) (Ret tt))
              demo_argv [Ret "hello"]) []).2 = close_calls [].
Proof.
  apply (sleep_failure_leaves_interface_open
           (quiet_like (Ret tt) (Ret tt) (Ret demo_iface) (Raise KeyboardInterrupt)
              (Ret tt) (Ret tt))
           demo_argv [Ret "hello"] " AA:BB:CC:DD:EE:01 " demo_iface
           KeyboardInterrupt []); reflexivity.
Defined.

(** An interrupt, or any other exception that is not an [Exception], raised
    while the interface constructor is connecting is not handled: it leaves
    [main] as it is, with no diagnostic printed, no [sys.exit], and no
    session. *)
Theorem interrupted_connect_is_unhandled
    (env : Env) (argv : list string) (typed : list (Outcome string))
    (raw : string) (e : exn) (w : World) :
  argv !! 1%nat = Some raw ->
  interface_answer env (strip raw) = Raise e ->
  is_Exception e = false ->
  run (main env argv typed) w =
    (Raise e,
     w ++ [Print ("Attempting to connect to BLE device at address: " +:+ strip raw) newline;
           NewInterface (strip raw)]).
Proof.
  intros Hargv Hif He. unfold main.
  rewrite (argv_has_address argv raw Hargv), Hargv. simpl default.
  step. unfold connecting, try_except.
  unfold run, mbind, M_bind, bind, extern, print, emit, ret.
  rewrite Hif, He. by rewrite <- !app_assoc.
Qed.

Lemma interrupted_connect_is_unhandled_witness :
  run (main (quiet_like (Ret tt) (Ret tt) (Raise KeyboardInterrupt) (Ret tt)
               (Ret tt) (Ret tt))
         demo_argv [Ret "hello"]) [] =
    (Raise KeyboardInterrupt,
     [] ++ [Print ("Attempting to connect to BLE device at address: "
                   +:+ strip " AA:BB:CC:DD:EE:01 ") newline;
            NewInterface (strip " AA:BB:CC:DD:EE:01 ")]).
Proof.
  apply (interrupted_connect_is_unhandled
           (quiet_like (Ret tt) (Ret tt) (Raise KeyboardInterrupt) (Ret tt)
              (Ret tt) (Ret tt))
           demo_argv [Ret "hello"] " AA:BB:CC:DD:EE:01 " KeyboardInterrupt []);
    reflexivity.
Defined.

(** ** Program start-up *)

(** The start-up block installs both overrides and keeps the routine that
    was the class's [connect] before it ran as [_original_connect]: the
    fallback is taken before the override replaces it, so it is never the
    override itself when the block runs on the library as imported.  No
    other class attribute changes, and the handler ends up registered once
    on the text topic. *)
Theorem module_main_installs_overrides (rt : Runtime) (original : routine) :
  class_attrs rt !! "connect" = Some original ->
  exists rt',
    module_main rt = Some rt'
    ∧ class_attrs rt' !! "connect" = Some CustomConnect
    ∧ class_attrs rt' !! "find_device" = Some CustomFindDevice
    ∧ saved_original rt' = Some original
    ∧ (forall key, key ≠ "connect" -> key ≠ "find_device" ->
         class_attrs rt' !! key = class_attrs rt !! key)
    ∧ OnReceive ∈ default [] (subscriptions rt' !! "meshtastic.receive.text")
    ∧ (OnReceive ∈ default [] (subscriptions rt !! "meshtastic.receive.text") ->
       subscriptions rt' = subscriptions rt).
Proof.
  intros Hc. unfold module_main.
  rewrite lookup_insert_ne by done. rewrite Hc. simpl.
  eexists. split; [reflexivity|].
  unfold subscribe. simpl.
  case_bool_decide as Hin; simpl.
  - rewrite lookup_insert_eq.
    rewrite lookup_insert_ne, lookup_insert_eq by done.
    repeat split; try done.
    intros key H1 H2. by rewrite !lookup_insert_ne.
  - rewrite lookup_insert_eq.
    rewrite lookup_insert_ne, lookup_insert_eq by done.
    repeat split; try done.
    + intros key H1 H2. by rewrite !lookup_insert_ne.
    + rewrite lookup_insert_eq. simpl. apply elem_of_app. right. by left.
Qed.

Lemma module_main_installs_overrides_witness :
  exists rt',
    module_main pristine = Some rt'
    ∧ class_attrs rt' !! "connect" = Some CustomConnect
    ∧ class_attrs rt' !! "find_device" = Some CustomFindDevice
    ∧ saved_original rt' = Some LibraryConnect
    ∧ (forall key, key ≠ "connect" -> key ≠ "find_device" ->
         class_attrs rt' !! key = class_attrs pristine !! key)
    ∧ OnReceive ∈ default [] (subscriptions rt' !! "meshtastic.receive.text")
    ∧ (OnReceive ∈ default [] (subscriptions pristine !! "meshtastic.receive.text") ->
       subscriptions rt' = subscriptions pristine).
Proof.
  apply (module_main_installs_overrides pristine LibraryConnect).
  vm_compute. reflexivity.
Defined.
